(** * TraceNG VM supervisor (gns3server/compute/traceng/traceng_vm.py)

    A shallow embedding of the [TraceNGVM] class: the node is a record of its
    attributes, every method is a function in a state-and-exception monad
    over that record, and everything the node does to the outside world
    (log records, project events, port releases, bridge commands, signals
    sent to the child process) is appended, in program order, to the
    [effects] field.  What the outside world answers (configuration, file
    system, resolver, the operating system's answers about the child
    process) is read from a [Host] record passed to each method call.

    Each method is modelled as one sequential run, the way the cooperative
    scheduler runs it when no other coroutine of the node is resumed at its
    suspension points. *)

From Stdlib Require Import ZArith Ascii String List Bool Lia DecimalString.
Import ListNotations.

Open Scope string_scope.
Open Scope Z_scope.
Open Scope list_scope.

Infix "+++" := String.append (at level 60, right associativity).

(** ** Python built-ins used by the source *)

(** [str(n)] for an [int]. *)
Definition str_int (n : Z) : string := NilZero.string_of_int (Z.to_int n).

(** [sep.join(parts)]. *)
Definition join (sep : string) (parts : list string) : string :=
  String.concat sep parts.

(** Truth value of a [str]: the empty string is false. *)
Definition nonempty (s : string) : bool :=
  match s with EmptyString => false | String _ _ => true end.

Fixpoint ends_with_slash (s : string) : bool :=
  match s with
  | EmptyString => false
  | String c EmptyString => Ascii.eqb c "/"%char
  | String _ rest => ends_with_slash rest
  end.

(** [os.path.join(a, b)] for a relative [b] (POSIX). *)
Definition path_join (a b : string) : string :=
  if nonempty a
  then if ends_with_slash a then a +++ b else a +++ "/" +++ b
  else b.

(** ** Data model *)

(** The [asyncio.subprocess.Process] handle: [returncode] is [None] while the
    child has not been reaped. *)
Record Process := mkProcess {
  pid : Z;
  returncode : option Z
}.

(** Modelled from the spec: the NIO classes (gns3server/compute/nios) are not
    part of the sources at hand.  A NIO is either a UDP tunnel endpoint or a
    TAP endpoint and carries its own capturing flag and an optional capture
    output path (spec, section 3). *)
Inductive nio_endpoint :=
| NIOUDP (lport : Z) (rhost : string) (rport : Z)
| NIOTAP (tap_device : string).

Record NIO := mkNIO {
  endpoint : nio_endpoint;
  capturing : bool;
  pcap_output_file : option string
}.

(** [isinstance(nio, NIOUDP)]. *)
Definition is_NIOUDP (n : NIO) : bool :=
  match endpoint n with NIOUDP _ _ _ => true | NIOTAP _ => false end.

(** Modelled from the spec: [NIO.startPacketCapture] and
    [NIO.stopPacketCapture] are not part of the sources at hand.  The first
    marks the NIO capturing with the given output path, the second clears the
    capturing flag (spec, section 4.2). *)
Definition startPacketCapture (output_file : string) (n : NIO) : NIO :=
  {| endpoint := endpoint n; capturing := true;
     pcap_output_file := Some output_file |}.

Definition stopPacketCapture (n : NIO) : NIO :=
  {| endpoint := endpoint n; capturing := false;
     pcap_output_file := pcap_output_file n |}.

(** Modelled from the spec: the [EthernetAdapter] class
    (gns3server/compute/adapters) is not part of the sources at hand.  The
    adapter has one fixed port, index 0, holding at most one NIO (spec,
    sections 2 and 3).  The source calls [add_nio], [remove_nio] and
    [get_nio] on a port only after [port_exists] answered true (or with the
    literal 0). *)
Record EthernetAdapter := mkAdapter {
  port0 : option NIO
}.

Definition new_EthernetAdapter : EthernetAdapter := {| port0 := None |}.

Definition port_exists (a : EthernetAdapter) (port_number : Z) : bool :=
  port_number =? 0.

Definition get_nio (a : EthernetAdapter) (port_number : Z) : option NIO :=
  if port_number =? 0 then port0 a else None.

Definition add_nio (port_number : Z) (n : NIO) (a : EthernetAdapter)
  : EthernetAdapter :=
  if port_number =? 0 then {| port0 := Some n |} else a.

Definition remove_nio (port_number : Z) (a : EthernetAdapter)
  : EthernetAdapter :=
  if port_number =? 0 then {| port0 := None |} else a.

(** ** Effects on the outside world *)

Inductive level := INFO | WARNING | ERROR.

Inductive effect :=
| Log (lvl : level) (msg : string)
    (* log.info / log.warning / log.error *)
| Emit (kind : string) (message : string)
    (* self.project.emit(kind, {"message": message}) *)
| ReleaseUdpPort (port : Z)
    (* self.manager.port_manager.release_udp_port(port, self._project) *)
| StopUbridge
| StartUbridge
| AddUbridgeUdpConnection (bridge : string) (source destination : NIO)
| UpdateUbridgeUdpConnection (bridge : string) (source destination : NIO)
| UbridgeSend (command : string)
| OpenForWriting (path : string)
| CreateSubprocess (command : list string) (cwd : string)
| MonitorProcess (child : Z)
| StartWrapConsole
| Terminate (child : Z)
    (* self._process.terminate() *)
| WaitForTermination (child : Z) (timeout : Z)
    (* wait_for_process_termination(self._process, timeout=timeout) *)
| Kill (child : Z).
    (* self._process.kill() *)

(** The project events among the effects, oldest first. *)
Fixpoint emitted (l : list effect) : list (string * string) :=
  match l with
  | [] => []
  | Emit kind message :: rest => (kind, message) :: emitted rest
  | _ :: rest => emitted rest
  end.

(** The UDP ports given back to the port manager, oldest first. *)
Fixpoint released (l : list effect) : list Z :=
  match l with
  | [] => []
  | ReleaseUdpPort port :: rest => port :: released rest
  | _ :: rest => released rest
  end.

(** ** The node *)

Record TraceNGVM := mkVM {
  (* BaseNode: identity, fixed after construction *)
  name : string;
  id : string;
  working_dir : string;
  _internal_console_port : Z;
  (* BaseNode: mutable *)
  status : string;
  command_line : string;
  _closed : bool;
  ubridge : bool;            (* the bridging helper is started *)
  (* TraceNGVM *)
  _process : option Process;
  _started : bool;
  _traceng_stdout_file : string;
  _local_udp_tunnel : option (NIO * NIO);
  _ethernet_adapter : EthernetAdapter;
  (* what the node has done to the outside world so far *)
  effects : list effect
}.

Definition set_status (v : string) (s : TraceNGVM) : TraceNGVM :=
  mkVM (name s) (id s) (working_dir s) (_internal_console_port s)
       v (command_line s) (_closed s) (ubridge s)
       (_process s) (_started s) (_traceng_stdout_file s)
       (_local_udp_tunnel s) (_ethernet_adapter s) (effects s).

Definition set_command_line (v : string) (s : TraceNGVM) : TraceNGVM :=
  mkVM (name s) (id s) (working_dir s) (_internal_console_port s)
       (status s) v (_closed s) (ubridge s)
       (_process s) (_started s) (_traceng_stdout_file s)
       (_local_udp_tunnel s) (_ethernet_adapter s) (effects s).

Definition set_closed (v : bool) (s : TraceNGVM) : TraceNGVM :=
  mkVM (name s) (id s) (working_dir s) (_internal_console_port s)
       (status s) (command_line s) v (ubridge s)
       (_process s) (_started s) (_traceng_stdout_file s)
       (_local_udp_tunnel s) (_ethernet_adapter s) (effects s).

Definition set_ubridge (v : bool) (s : TraceNGVM) : TraceNGVM :=
  mkVM (name s) (id s) (working_dir s) (_internal_console_port s)
       (status s) (command_line s) (_closed s) v
       (_process s) (_started s) (_traceng_stdout_file s)
       (_local_udp_tunnel s) (_ethernet_adapter s) (effects s).

Definition set_process (v : option Process) (s : TraceNGVM) : TraceNGVM :=
  mkVM (name s) (id s) (working_dir s) (_internal_console_port s)
       (status s) (command_line s) (_closed s) (ubridge s)
       v (_started s) (_traceng_stdout_file s)
       (_local_udp_tunnel s) (_ethernet_adapter s) (effects s).

Definition set_started (v : bool) (s : TraceNGVM) : TraceNGVM :=
  mkVM (name s) (id s) (working_dir s) (_internal_console_port s)
       (status s) (command_line s) (_closed s) (ubridge s)
       (_process s) v (_traceng_stdout_file s)
       (_local_udp_tunnel s) (_ethernet_adapter s) (effects s).

Definition set_traceng_stdout_file (v : string) (s : TraceNGVM) : TraceNGVM :=
  mkVM (name s) (id s) (working_dir s) (_internal_console_port s)
       (status s) (command_line s) (_closed s) (ubridge s)
       (_process s) (_started s) v
       (_local_udp_tunnel s) (_ethernet_adapter s) (effects s).

Definition set_local_udp_tunnel (v : option (NIO * NIO)) (s : TraceNGVM)
  : TraceNGVM :=
  mkVM (name s) (id s) (working_dir s) (_internal_console_port s)
       (status s) (command_line s) (_closed s) (ubridge s)
       (_process s) (_started s) (_traceng_stdout_file s)
       v (_ethernet_adapter s) (effects s).

Definition set_ethernet_adapter (v : EthernetAdapter) (s : TraceNGVM)
  : TraceNGVM :=
  mkVM (name s) (id s) (working_dir s) (_internal_console_port s)
       (status s) (command_line s) (_closed s) (ubridge s)
       (_process s) (_started s) (_traceng_stdout_file s)
       (_local_udp_tunnel s) v (effects s).

Definition set_effects (v : list effect) (s : TraceNGVM) : TraceNGVM :=
  mkVM (name s) (id s) (working_dir s) (_internal_console_port s)
       (status s) (command_line s) (_closed s) (ubridge s)
       (_process s) (_started s) (_traceng_stdout_file s)
       (_local_udp_tunnel s) (_ethernet_adapter s) v.

(** ** Exceptions and the method monad *)

Inductive exn :=
| TraceNGError (msg : string)
| NodeError (msg : string)
| OSError (msg : string)
| ProcessLookupError (msg : string)      (* subclass of OSError *)
| gaierror (msg : string)                (* socket.gaierror, subclass of OSError *)
| SubprocessError (msg : string)
| TimeoutError                           (* asyncio.TimeoutError *)
| TypeError (msg : string)
| AttributeError (msg : string).

(** [except OSError] also catches the subclasses. *)
Definition is_OSError (e : exn) : bool :=
  match e with
  | OSError _ | ProcessLookupError _ | gaierror _ => true
  | _ => false
  end.

(** [str(e)] for the exceptions the source formats into messages. *)
Definition str_exn (e : exn) : string :=
  match e with
  | TraceNGError m | NodeError m | OSError m | ProcessLookupError m
  | gaierror m | SubprocessError m | TypeError m | AttributeError m => m
  | TimeoutError => ""
  end.

Inductive result (A : Type) :=
| Ok (a : A)
| Raise (e : exn).
Arguments Ok {A} a.
Arguments Raise {A} e.

(** A method run: from the node before the call to the value returned or the
    exception raised, and the node after it.  A raised exception keeps every
    mutation made before it. *)
Definition M (A : Type) : Type := TraceNGVM -> result A * TraceNGVM.

Definition ret {A} (a : A) : M A := fun s => (Ok a, s).

Definition bind {A B} (m : M A) (k : A -> M B) : M B :=
  fun s => match m s with
           | (Ok a, s') => k a s'
           | (Raise e, s') => (Raise e, s')
           end.

Definition raise {A} (e : exn) : M A := fun s => (Raise e, s).

Definition gets {A} (f : TraceNGVM -> A) : M A := fun s => (Ok (f s), s).

Definition modify (f : TraceNGVM -> TraceNGVM) : M unit :=
  fun s => (Ok tt, f s).

(** [try: body except <classes>: handler]; the handler answers [None] for an
    exception the clause does not name, which then propagates. *)
Definition try_except {A} (body : M A) (handler : exn -> option (M A)) : M A :=
  fun s => match body s with
           | (Ok a, s') => (Ok a, s')
           | (Raise e, s') =>
               match handler e with
               | Some k => k s'
               | None => (Raise e, s')
               end
           end.

Declare Scope method_scope.
Delimit Scope method_scope with method.
Notation "x <- m ;; k" := (bind m (fun x => k))
  (at level 100, m at next level, right associativity) : method_scope.
Notation "m ;; k" := (bind m (fun _ => k))
  (at level 100, right associativity) : method_scope.
Open Scope method_scope.

Definition perform (e : effect) : M unit :=
  modify (fun s => set_effects (effects s ++ [e]) s).

Definition log (lvl : level) (msg : string) : M unit := perform (Log lvl msg).

(** ** The outside world *)

(** What a call into the host answers: a value, or the failure the source
    provides for at that call, with the text [str(e)] of the exception. *)
Inductive answer (A : Type) :=
| Returns (a : A)
| Fails (msg : string).
Arguments Returns {A} a.
Arguments Fails {A} msg.

(** [wait_for_process_termination(process, timeout)] either returns, the
    child having exited with the given code, or raises
    [asyncio.TimeoutError]; the handler then reads [returncode] again. *)
Inductive wait_outcome :=
| Exited (rc : Z)
| TimedOut (returncode_now : option Z).

(** [asyncio.create_subprocess_exec] returns the handle of the new child (its
    pid here, its [returncode] being [None]) or raises [OSError] or
    [subprocess.SubprocessError]. *)
Inductive spawn_outcome :=
| Spawned (child : Z)
| SpawnOSError (msg : string)
| SpawnSubprocessError (msg : string).

(** The answers of the host during one method call.  The calls are the ones
    the source makes; the failures are the ones its [except] clauses name. *)
Record Host := mkHost {
  (* config.get_section_config("TraceNG"): the "traceng_path" key, if set *)
  traceng_path_setting : option string;
  (* shutil.which *)
  which : string -> option string;
  (* BaseNode.ubridge_path, which raises when ubridge is not available *)
  ubridge_path : answer string;
  (* os.path.isfile *)
  isfile : string -> bool;
  (* os.access(path, os.X_OK) *)
  access_X_OK : string -> bool;
  (* socket.gethostbyname; fails with socket.gaierror *)
  gethostbyname : string -> answer string;
  (* open(path, "rb").read().decode("utf-8", errors="replace"); fails with
     OSError *)
  read_file : string -> answer string;
  (* open(path, "w", encoding="utf-8"); fails with OSError *)
  open_for_writing : string -> answer unit;
  (* asyncio.create_subprocess_exec on the command, with cwd *)
  create_subprocess_exec : list string -> string -> spawn_outcome;
  (* BaseNode._create_local_udp_tunnel(): the two freshly leased endpoints *)
  _create_local_udp_tunnel : NIO * NIO;
  (* Process.terminate(); fails with ProcessLookupError *)
  terminate : Process -> answer unit;
  (* gns3server.utils.asyncio.wait_for_process_termination *)
  wait_for_process_termination : Process -> Z -> wait_outcome;
  (* Process.kill(); fails with OSError *)
  kill : Process -> answer unit;
  (* Process.returncode as read right after kill() *)
  returncode_after_kill : Process -> option Z
}.

Definition dquote : string := String (ascii_of_nat 34) EmptyString.
Definition newline : string := String (ascii_of_nat 10) EmptyString.

Section Methods.

(** [str()] of the objects the source formats into messages, and Python's
    rendering of a list of strings; their classes are not part of the sources
    at hand and no property below depends on them. *)
Variable str_nio : option NIO -> string.
Variable str_adapter : EthernetAdapter -> string.
Variable str_list : list string -> string.

(** ** The base node and the collaborators *)

(** Modelled from the spec: [BaseNode.__init__] is not part of the sources at
    hand.  A node starts in status stopped (spec, section 4.1), not closed,
    with the bridging helper not started. *)
Definition BaseNode_init (name id working_dir : string) (console : Z)
    (process : option Process) (started : bool) (stdout_file : string)
    (tunnel : option (NIO * NIO)) (adapter : EthernetAdapter) : TraceNGVM :=
  mkVM name id working_dir console "stopped" EmptyString false false
       process started stdout_file tunnel adapter [].

(** Modelled from the spec: [BaseNode.close] is not part of the sources at
    hand.  It answers whether closing did work: true the first time, false
    once the node is closed (spec, sections 4.1 and 8). *)
Definition BaseNode_close : M bool :=
  closed <- gets _closed ;;
  if closed then ret false
  else (modify (set_closed true) ;; ret true).

(** Modelled from the spec: [BaseNode.stop] is not part of the sources at
    hand.  It leaves the node in status stopped (spec, sections 4.1, 7). *)
Definition BaseNode_stop : M unit := modify (set_status "stopped").

(** Modelled from the spec: the bridging helper of [BaseNode] is not part of
    the sources at hand.  It is a command channel that accepts the bridge
    management commands, and is available only while started (spec, sections
    1, 2 and 6). *)
Definition _stop_ubridge : M unit :=
  perform StopUbridge ;; modify (set_ubridge false).

Definition _start_ubridge : M unit :=
  perform StartUbridge ;; modify (set_ubridge true).

Definition add_ubridge_udp_connection (bridge : string) (src dst : NIO)
  : M unit := perform (AddUbridgeUdpConnection bridge src dst).

Definition update_ubridge_udp_connection (bridge : string) (src dst : NIO)
  : M unit := perform (UpdateUbridgeUdpConnection bridge src dst).

Definition _ubridge_send (command : string) : M unit :=
  perform (UbridgeSend command).

Definition start_wrap_console : M unit := perform StartWrapConsole.

Definition release_udp_port (port : Z) : M unit :=
  perform (ReleaseUdpPort port).

Definition project_emit (kind message : string) : M unit :=
  perform (Emit kind message).

(** ** Attribute access that Python checks at run time *)

(** [self._process.<attr>]. *)
Definition the_process : M Process :=
  p <- gets _process ;;
  match p with
  | Some proc => ret proc
  | None => raise (AttributeError "'NoneType' object has no attribute")
  end.

(** [self._local_udp_tunnel[0]] and [self._local_udp_tunnel[1]]. *)
Definition tunnel_item (i : bool) : M NIO :=
  t <- gets _local_udp_tunnel ;;
  match t with
  | Some (a, b) => ret (if i then b else a)
  | None => raise (TypeError "'NoneType' object is not subscriptable")
  end.

(** [nio.lport], an attribute of the UDP variant. *)
Definition nio_lport (n : NIO) : M Z :=
  match endpoint n with
  | NIOUDP lport _ _ => ret lport
  | NIOTAP _ => raise (AttributeError "object has no attribute 'lport'")
  end.

(** ["TraceNG-{}".format(self._id)] *)
Definition bridge_name (s : TraceNGVM) : string := "TraceNG-" +++ id s.

(** ** TraceNGVM *)

Definition __init__ (name node_id working_dir : string) (console : Z)
  : TraceNGVM :=
  BaseNode_init name node_id working_dir console
                None false EmptyString None new_EthernetAdapter.

Definition is_running (s : TraceNGVM) : bool :=
  match _process s with
  | Some p => match returncode p with None => true | Some _ => false end
  | None => false
  end.

Definition _traceng_path (h : Host) : string :=
  let search_path :=
    match traceng_path_setting h with Some p => p | None => "traceng" end in
  match which h search_path with
  | Some path => if nonempty path then path else search_path
  | None => search_path
  end.

Definition _check_requirements (h : Host) : M unit :=
  let path := _traceng_path h in
  if negb (nonempty path)
  then raise (TraceNGError "No path to a TraceNG executable has been set")
  else
    match ubridge_path h with
    | Fails msg => raise (NodeError msg)
    | Returns _ =>
        if negb (isfile h path)
        then raise (TraceNGError
                      ("TraceNG program '" +++ path +++ "' is not accessible"))
        else if negb (access_X_OK h path)
        then raise (TraceNGError
                      ("TraceNG program '" +++ path +++ "' is not executable"))
        else ret tt
    end.

Definition read_traceng_stdout (h : Host) : M string :=
  file <- gets _traceng_stdout_file ;;
  if nonempty file
  then match read_file h file with
       | Returns output => ret output
       | Fails e =>
           log WARNING ("Could not read " +++ file +++ ": " +++ e) ;;
           ret EmptyString
       end
  else ret EmptyString.

Definition _terminate_process (h : Host) : M unit :=
  p <- the_process ;;
  nm <- gets name ;;
  log INFO ("Stopping TraceNG instance " +++ nm +++ " PID=" +++ str_int (pid p)) ;;
  try_except
    (perform (Terminate (pid p)) ;;
     match terminate h p with
     | Returns _ => ret tt
     | Fails e => raise (ProcessLookupError e)
     end)
    (fun e => match e with
              | ProcessLookupError _ => Some (ret tt)
              | _ => None
              end).

Definition _build_command (h : Host) : M (list string) :=
  let command := [_traceng_path h] in
  console <- gets _internal_console_port ;;
  let command := command ++ ["-p"; str_int console] in
  let command := command ++ ["-m"; "1"] in
  let command := command ++ ["-i"; "1"] in
  let command := command ++ ["-F"] in
  t <- gets _local_udp_tunnel ;;
  match t with
  | Some _ => ret tt
  | None => modify (set_local_udp_tunnel (Some (_create_local_udp_tunnel h)))
  end ;;
  nio <- tunnel_item false ;;
  match endpoint nio with
  | NIOUDP lport rhost rport =>
      let command := command ++ ["-s"; str_int lport] in
      let command := command ++ ["-c"; str_int rport] in
      match gethostbyname h rhost with
      | Returns address => ret (command ++ ["-t"; address])
      | Fails e =>
          raise (TraceNGError
                   ("Can't resolve hostname " +++ rhost +++ ": " +++ e))
      end
  | NIOTAP _ => ret command
  end.

Definition _termination_callback (h : Host) (rc : Z) : M unit :=
  started <- gets _started ;;
  if started then
    log INFO ("TraceNG process has stopped, return code: " +++ str_int rc) ;;
    modify (set_started false) ;;
    modify (set_status "stopped") ;;
    modify (set_process None) ;;
    if negb (rc =? 0) then
      output <- read_traceng_stdout h ;;
      project_emit "log.error"
        ("TraceNG process has stopped, return code: " +++ str_int rc
           +++ newline +++ output)
    else ret tt
  else ret tt.

(** The handle's [returncode] as the event loop updates it. *)
Definition set_returncode (rc : option Z) : M unit :=
  modify (fun s => match _process s with
                   | Some p => set_process (Some (mkProcess (pid p) rc)) s
                   | None => s
                   end).

Definition is_SubprocessError (e : exn) : bool :=
  match e with SubprocessError _ => true | _ => false end.

Definition start (h : Host) : M unit :=
  _check_requirements h ;;
  running <- gets is_running ;;
  if negb running then
    nio <- gets (fun s => get_nio (_ethernet_adapter s) 0) ;;
    command <- _build_command h ;;
    try_except
      (log INFO ("Starting TraceNG: " +++ str_list command) ;;
       wd <- gets working_dir ;;
       modify (set_traceng_stdout_file (path_join wd "traceng.log")) ;;
       file <- gets _traceng_stdout_file ;;
       log INFO ("Logging to " +++ file) ;;
       perform (OpenForWriting file) ;;
       match open_for_writing h file with
       | Fails e => raise (OSError e)
       | Returns _ =>
           modify (set_command_line (join " " command)) ;;
           perform (CreateSubprocess command wd) ;;
           match create_subprocess_exec h command wd with
           | Spawned child =>
               modify (set_process (Some (mkProcess child None))) ;;
               perform (MonitorProcess child)
           | SpawnOSError e => raise (OSError e)
           | SpawnSubprocessError e => raise (SubprocessError e)
           end
       end ;;
       _start_ubridge ;;
       match nio with
       | Some n =>
           bridge <- gets bridge_name ;;
           src <- tunnel_item true ;;
           add_ubridge_udp_connection bridge src n
       | None => ret tt
       end ;;
       start_wrap_console ;;
       nm <- gets name ;;
       p <- the_process ;;
       log INFO ("TraceNG instance " +++ nm +++ " started PID="
                   +++ str_int (pid p)) ;;
       modify (set_started true) ;;
       modify (set_status "started"))
      (fun e =>
         if is_OSError e || is_SubprocessError e then
           Some (traceng_stdout <- read_traceng_stdout h ;;
                 let msg := "Could not start TraceNG " +++ _traceng_path h
                              +++ ": " +++ str_exn e +++ newline
                              +++ traceng_stdout in
                 log ERROR msg ;;
                 raise (TraceNGError msg))
         else None)
  else ret tt.

Definition stop (h : Host) : M unit :=
  _stop_ubridge ;;
  running <- gets is_running ;;
  (if running then
     _terminate_process h ;;
     p <- the_process ;;
     match returncode p with
     | None =>
         try_except
           (perform (WaitForTermination (pid p) 3) ;;
            match wait_for_process_termination h p 3 with
            | Exited rc => set_returncode (Some rc)
            | TimedOut rc => set_returncode rc ;; raise TimeoutError
            end)
           (fun e =>
              match e with
              | TimeoutError =>
                  Some
                    (p <- the_process ;;
                     match returncode p with
                     | None =>
                         try_except
                           (perform (Kill (pid p)) ;;
                            match kill h p with
                            | Returns _ => ret tt
                            | Fails e => raise (OSError e)
                            end)
                           (fun e =>
                              if is_OSError e then
                                Some (log ERROR
                                        ("Cannot stop the TraceNG process: "
                                           +++ str_exn e))
                              else None) ;;
                         set_returncode (returncode_after_kill h p) ;;
                         p <- the_process ;;
                         match returncode p with
                         | None =>
                             nm <- gets name ;;
                             log WARNING
                               ("TraceNG VM " +++ dquote +++ nm +++ dquote
                                  +++ " with PID=" +++ str_int (pid p)
                                  +++ " is still running")
                         | Some _ => ret tt
                         end
                     | Some _ => ret tt
                     end)
              | _ => None
              end)
     | Some _ => ret tt
     end
   else ret tt) ;;
  modify (set_process None) ;;
  modify (set_started false) ;;
  BaseNode_stop.


Definition close (h : Host) : M bool :=
  did_work <- BaseNode_close ;;
  if negb did_work then ret false
  else
    nio <- gets (fun s => get_nio (_ethernet_adapter s) 0) ;;
    match nio with
    | Some n =>
        match endpoint n with
        | NIOUDP lport _ _ => release_udp_port lport
        | NIOTAP _ => ret tt
        end
    | None => ret tt
    end ;;
    t <- gets _local_udp_tunnel ;;
    match t with
    | Some _ =>
        a <- tunnel_item false ;;
        lport <- nio_lport a ;;
        release_udp_port lport ;;
        b <- tunnel_item true ;;
        lport <- nio_lport b ;;
        release_udp_port lport ;;
        modify (set_local_udp_tunnel None)
    | None => ret tt
    end ;;
    _stop_ubridge ;;
    running <- gets is_running ;;
    (if running then _terminate_process h else ret tt) ;;
    ret true.

(** ["Port {port_number} doesn't exist in adapter {adapter}"] *)
Definition port_does_not_exist (port_number : Z) (a : EthernetAdapter)
  : string :=
  "Port " +++ str_int port_number +++ " doesn't exist in adapter "
    +++ str_adapter a.

(** ['TraceNG "{name}" [{id}]: {nio} <what> port {port_number}'] *)
Definition binding_record (s : TraceNGVM) (nio : option NIO) (what : string)
    (port_number : Z) : string :=
  "TraceNG " +++ dquote +++ name s +++ dquote +++ " [" +++ id s +++ "]: "
    +++ str_nio nio +++ what +++ str_int port_number.

Definition port_add_nio_binding (port_number : Z) (nio : NIO) : M NIO :=
  adapter <- gets _ethernet_adapter ;;
  if negb (port_exists adapter port_number)
  then raise (TraceNGError (port_does_not_exist port_number adapter))
  else
    running <- gets is_running ;;
    (if running then
       bridge <- gets bridge_name ;;
       src <- tunnel_item true ;;
       add_ubridge_udp_connection bridge src nio
     else ret tt) ;;
    modify (fun s =>
              set_ethernet_adapter
                (add_nio port_number nio (_ethernet_adapter s)) s) ;;
    record <- gets (fun s =>
                      binding_record s (Some nio) " added to port "
                                     port_number) ;;
    log INFO record ;;
    ret nio.

Definition port_update_nio_binding (port_number : Z) (nio : NIO) : M unit :=
  adapter <- gets _ethernet_adapter ;;
  if negb (port_exists adapter port_number)
  then raise (TraceNGError (port_does_not_exist port_number adapter))
  else
    running <- gets is_running ;;
    if running then
      bridge <- gets bridge_name ;;
      src <- tunnel_item true ;;
      update_ubridge_udp_connection bridge src nio
    else ret tt.

Definition port_remove_nio_binding (port_number : Z) : M (option NIO) :=
  adapter <- gets _ethernet_adapter ;;
  if negb (port_exists adapter port_number)
  then raise (TraceNGError (port_does_not_exist port_number adapter))
  else
    running <- gets is_running ;;
    (if running then
       bridge <- gets bridge_name ;;
       _ubridge_send ("bridge delete " +++ bridge)
     else ret tt) ;;
    nio <- gets (fun s => get_nio (_ethernet_adapter s) port_number) ;;
    match nio with
    | Some n =>
        match endpoint n with
        | NIOUDP lport _ _ => release_udp_port lport
        | NIOTAP _ => ret tt
        end
    | None => ret tt
    end ;;
    modify (fun s =>
              set_ethernet_adapter
                (remove_nio port_number (_ethernet_adapter s)) s) ;;
    record <- gets (fun s =>
                      binding_record s nio " removed from port "
                                     port_number) ;;
    log INFO record ;;
    ret nio.

(** ["TraceNG '{name}' [{id}]: <what> packet capture on port {port_number}"] *)
Definition capture_record (s : TraceNGVM) (what : string) (port_number : Z)
  : string :=
  "TraceNG '" +++ name s +++ "' [" +++ id s +++ "]: " +++ what
    +++ " packet capture on port " +++ str_int port_number.

(** A method of the NIO object held on port 0 that mutates it in place. *)
Definition mutate_nio0 (f : NIO -> NIO) : M unit :=
  modify (fun s =>
            match port0 (_ethernet_adapter s) with
            | Some n => set_ethernet_adapter {| port0 := Some (f n) |} s
            | None => s
            end).

Definition start_capture (port_number : Z) (output_file : string) : M unit :=
  adapter <- gets _ethernet_adapter ;;
  if negb (port_exists adapter port_number)
  then raise (TraceNGError (port_does_not_exist port_number adapter))
  else
    nio <- gets (fun s => get_nio (_ethernet_adapter s) 0) ;;
    match nio with
    | None =>
        raise (TraceNGError
                 ("Port " +++ str_int port_number +++ " is not connected"))
    | Some n =>
        if capturing n
        then raise (TraceNGError
                      ("Packet capture is already activated on port "
                         +++ str_int port_number))
        else
          mutate_nio0 (startPacketCapture output_file) ;;
          active <- gets ubridge ;;
          (if active then
             bridge <- gets bridge_name ;;
             _ubridge_send ("bridge start_capture " +++ bridge +++ " "
                              +++ dquote +++ output_file +++ dquote)
           else ret tt) ;;
          record <- gets (fun s => capture_record s "starting" port_number) ;;
          log INFO record
    end.

Definition stop_capture (port_number : Z) : M unit :=
  adapter <- gets _ethernet_adapter ;;
  if negb (port_exists adapter port_number)
  then raise (TraceNGError (port_does_not_exist port_number adapter))
  else
    nio <- gets (fun s => get_nio (_ethernet_adapter s) 0) ;;
    match nio with
    | None =>
        raise (TraceNGError
                 ("Port " +++ str_int port_number +++ " is not connected"))
    | Some _ =>
        mutate_nio0 stopPacketCapture ;;
        active <- gets ubridge ;;
        (if active then
           bridge <- gets bridge_name ;;
           _ubridge_send ("bridge stop_capture " +++ bridge)
         else ret tt) ;;
        record <- gets (fun s => capture_record s "stopping" port_number) ;;
        log INFO record
    end.

(** The watcher registered by [monitor_process]: the child has exited with
    code [rc], its handle (if the node still holds it) shows the code, and
    the termination callback is called with it. *)
Definition process_exited (h : Host) (rc : Z) : M unit :=
  set_returncode (Some rc) ;;
  _termination_callback h rc.

End Methods.

(** ** Pure readings of a state *)

(** What [read_traceng_stdout] returns when the log file is [file]: its
    contents, or the empty string when no file is named or when it cannot be
    read. *)
Definition file_text (h : Host) (file : string) : string :=
  if nonempty file
  then match read_file h file with
       | Returns output => output
       | Fails _ => EmptyString
       end
  else EmptyString.

(** The captured process log of the last launch. *)
Definition captured_log (h : Host) (s : TraceNGVM) : string :=
  file_text h (_traceng_stdout_file s).

(** The NIO the adapter reports on port 0. *)
Definition nio_on_port0 (s : TraceNGVM) : option NIO :=
  get_nio (_ethernet_adapter s) 0.

(** The node attributes other than the effects it has had. *)
Definition same_attributes (s t : TraceNGVM) : Prop :=
  set_effects [] s = set_effects [] t.

(** The effects other than log records, oldest first. *)
Fixpoint actions (l : list effect) : list effect :=
  match l with
  | [] => []
  | Log _ _ :: rest => actions rest
  | e :: rest => e :: actions rest
  end.

(** What [stop()] is expected to do to the outside world besides logging:
    tear the bridging helper down; then, for a running process, the
    termination signal, the wait of at most 3 and, when the wait times out
    with the exit code still unset, the kill. *)
Definition stop_actions (h : Host) (s : TraceNGVM) : list effect :=
  StopUbridge ::
  match _process s with
  | Some p =>
      match returncode p with
      | None =>
          Terminate (pid p) :: WaitForTermination (pid p) 3 ::
          match wait_for_process_termination h p 3 with
          | TimedOut None => [Kill (pid p)]
          | _ => []
          end
      | Some _ => []
      end
  | None => []
  end.

(** The round trip of a NIO through port 0: binding it succeeds and returns
    it, unbinding then succeeds and returns it again, and the adapter then
    reports no NIO on port 0. *)
Definition bind_unbind_round_trip
    (str_nio : option NIO -> string) (str_adapter : EthernetAdapter -> string)
    (nioA : NIO) (s : TraceNGVM) : Prop :=
  exists s1 s2,
    port_add_nio_binding str_nio str_adapter 0 nioA s = (Ok nioA, s1)
    /\ port_remove_nio_binding str_nio str_adapter 0 s1 = (Ok (Some nioA), s2)
    /\ nio_on_port0 s2 = None.

(** The local tunnel is there whenever the process is running, as it is in
    every state reached from the constructor without [close()]: the tunnel is
    created by [_build_command] before the process is spawned and only
    [close()] removes it. *)
Definition tunnel_while_running (s : TraceNGVM) : Prop :=
  is_running s = true -> _local_udp_tunnel s <> None.

(** The local tunnel, when allocated, is a pair of UDP endpoints (spec,
    section 3). *)
Definition tunnel_is_udp (s : TraceNGVM) : bool :=
  match _local_udp_tunnel s with
  | Some (a, b) => is_NIOUDP a && is_NIOUDP b
  | None => true
  end.

(** The leased UDP port of a NIO, if it is of the UDP variant. *)
Definition leased_ports (n : NIO) : list Z :=
  match endpoint n with
  | NIOUDP lport _ _ => [lport]
  | NIOTAP _ => []
  end.

(** What the first [close()] is expected to do to the outside world besides
    logging: release the port of a UDP NIO bound on port 0, release the two
    ports of an allocated local tunnel, tear the bridging helper down, and
    send the termination signal to a running process. *)
Definition close_actions (s : TraceNGVM) : list effect :=
  map ReleaseUdpPort
      (match nio_on_port0 s with Some n => leased_ports n | None => [] end)
  ++ map ReleaseUdpPort
      (match _local_udp_tunnel s with
       | Some (a, b) => leased_ports a ++ leased_ports b
       | None => []
       end)
  ++ [StopUbridge]
  ++ match _process s with
     | Some p =>
         match returncode p with
         | None => [Terminate (pid p)]
         | Some _ => []
         end
     | None => []
     end.

(** Whether the requirements checked at the head of [start()] are met on the
    host: a path is set, ubridge is available, and the path names an
    executable file. *)
Definition requirements_met (h : Host) : bool :=
  nonempty (_traceng_path h)
  && match ubridge_path h with Returns _ => true | Fails _ => false end
  && isfile h (_traceng_path h)
  && access_X_OK h (_traceng_path h).

(** The log file of a launch: [os.path.join(self.working_dir, "traceng.log")]. *)
Definition log_file (s : TraceNGVM) : string :=
  path_join (working_dir s) "traceng.log".

(** ["Could not start TraceNG {}: {}\n{}"] *)
Definition could_not_start (h : Host) (e log_text : string) : string :=
  "Could not start TraceNG " +++ _traceng_path h +++ ": " +++ e
    +++ newline +++ log_text.

(** A running process is force-terminated between two states of the node
    when the kill, the forced step of [stop()], has been sent to it. *)
Definition force_terminated (before after : TraceNGVM) : Prop :=
  forall p, _process before = Some p -> returncode p = None ->
            In (Kill (pid p)) (effects after).

(** ** Sample nodes and hosts *)

Definition sample_udp_nio : NIO :=
  mkNIO (NIOUDP 20000 "192.168.1.7" 30000) false None.

Definition sample_tunnel : NIO * NIO :=
  (mkNIO (NIOUDP 10001 "localhost" 10002) false None,
   mkNIO (NIOUDP 10002 "localhost" 10001) false None).

(** A host on which everything is installed and the child process ignores
    both termination requests. *)
Definition sample_host : Host :=
  {| traceng_path_setting := None;
     which := fun p => Some ("/usr/bin/" +++ p);
     ubridge_path := Returns "/usr/bin/ubridge";
     isfile := fun _ => true;
     access_X_OK := fun _ => true;
     gethostbyname := fun _ => Returns "127.0.0.1";
     read_file := fun _ => Returns "trace output";
     open_for_writing := fun _ => Returns tt;
     create_subprocess_exec := fun _ _ => Spawned 4242;
     _create_local_udp_tunnel := sample_tunnel;
     terminate := fun _ => Returns tt;
     wait_for_process_termination := fun _ _ => TimedOut None;
     kill := fun _ => Fails "Operation not permitted";
     returncode_after_kill := fun _ => None |}.

(** The same host after the executable has been removed from the disk. *)
Definition host_without_executable : Host :=
  {| traceng_path_setting := None;
     which := fun _ => None;
     ubridge_path := Returns "/usr/bin/ubridge";
     isfile := fun _ => false;
     access_X_OK := fun _ => false;
     gethostbyname := fun _ => Returns "127.0.0.1";
     read_file := fun _ => Returns "trace output";
     open_for_writing := fun _ => Returns tt;
     create_subprocess_exec := fun _ _ => Spawned 4242;
     _create_local_udp_tunnel := sample_tunnel;
     terminate := fun _ => Returns tt;
     wait_for_process_termination := fun _ _ => TimedOut None;
     kill := fun _ => Fails "Operation not permitted";
     returncode_after_kill := fun _ => None |}.

(** A host on which the log file cannot be opened for writing. *)
Definition host_with_readonly_disk : Host :=
  {| traceng_path_setting := None;
     which := fun p => Some ("/usr/bin/" +++ p);
     ubridge_path := Returns "/usr/bin/ubridge";
     isfile := fun _ => true;
     access_X_OK := fun _ => true;
     gethostbyname := fun _ => Returns "127.0.0.1";
     read_file := fun _ => Fails "No such file or directory";
     open_for_writing := fun _ => Fails "Read-only file system";
     create_subprocess_exec := fun _ _ => Spawned 4242;
     _create_local_udp_tunnel := sample_tunnel;
     terminate := fun _ => Returns tt;
     wait_for_process_termination := fun _ _ => TimedOut None;
     kill := fun _ => Fails "Operation not permitted";
     returncode_after_kill := fun _ => None |}.

(** A host on which the executable cannot be spawned and the resolver is
    down. *)
Definition host_without_exec_permission : Host :=
  {| traceng_path_setting := None;
     which := fun p => Some ("/usr/bin/" +++ p);
     ubridge_path := Returns "/usr/bin/ubridge";
     isfile := fun _ => true;
     access_X_OK := fun _ => true;
     gethostbyname := fun _ => Returns "127.0.0.1";
     read_file := fun _ => Returns EmptyString;
     open_for_writing := fun _ => Returns tt;
     create_subprocess_exec := fun _ _ => SpawnOSError "Exec format error";
     _create_local_udp_tunnel := sample_tunnel;
     terminate := fun _ => Returns tt;
     wait_for_process_termination := fun _ _ => TimedOut None;
     kill := fun _ => Returns tt;
     returncode_after_kill := fun _ => Some (-9) |}.

Definition host_without_resolver : Host :=
  {| traceng_path_setting := None;
     which := fun p => Some ("/usr/bin/" +++ p);
     ubridge_path := Returns "/usr/bin/ubridge";
     isfile := fun _ => true;
     access_X_OK := fun _ => true;
     gethostbyname := fun _ => Fails "Name or service not known";
     read_file := fun _ => Returns EmptyString;
     open_for_writing := fun _ => Returns tt;
     create_subprocess_exec := fun _ _ => Spawned 4242;
     _create_local_udp_tunnel := sample_tunnel;
     terminate := fun _ => Returns tt;
     wait_for_process_termination := fun _ _ => Exited 0;
     kill := fun _ => Returns tt;
     returncode_after_kill := fun _ => Some (-9) |}.

(** A host whose configuration sets [traceng_path] to the empty string. *)
Definition host_with_empty_setting : Host :=
  {| traceng_path_setting := Some EmptyString;
     which := fun _ => None;
     ubridge_path := Returns "/usr/bin/ubridge";
     isfile := fun _ => false;
     access_X_OK := fun _ => false;
     gethostbyname := fun _ => Returns "127.0.0.1";
     read_file := fun _ => Returns EmptyString;
     open_for_writing := fun _ => Returns tt;
     create_subprocess_exec := fun _ _ => Spawned 4242;
     _create_local_udp_tunnel := sample_tunnel;
     terminate := fun _ => Returns tt;
     wait_for_process_termination := fun _ _ => Exited 0;
     kill := fun _ => Returns tt;
     returncode_after_kill := fun _ => Some (-9) |}.

(** A host on which the child process has already gone: the termination
    signal finds no process, and the wait sees the exit code at once. *)
Definition host_without_process : Host :=
  {| traceng_path_setting := None;
     which := fun p => Some ("/usr/bin/" +++ p);
     ubridge_path := Returns "/usr/bin/ubridge";
     isfile := fun _ => true;
     access_X_OK := fun _ => true;
     gethostbyname := fun _ => Returns "127.0.0.1";
     read_file := fun _ => Returns "trace output";
     open_for_writing := fun _ => Returns tt;
     create_subprocess_exec := fun _ _ => Spawned 4243;
     _create_local_udp_tunnel := sample_tunnel;
     terminate := fun _ => Fails "No such process";
     wait_for_process_termination := fun _ _ => Exited (-15);
     kill := fun _ => Returns tt;
     returncode_after_kill := fun _ => Some (-9) |}.

(** A node as its constructor leaves it. *)
Definition fresh_vm : TraceNGVM :=
  __init__ "TraceNG-1" "6f3c" "/tmp/6f3c" 5000.

(** A node whose tunnel has a TAP endpoint on the local side. *)
Definition tap_tunnel_vm : TraceNGVM :=
  set_local_udp_tunnel
    (Some (mkNIO (NIOTAP "tap0") false None,
           mkNIO (NIOUDP 10002 "localhost" 10001) false None))
    fresh_vm.

(** Sample renderings of the objects that appear in messages. *)
Definition show_nio (n : option NIO) : string :=
  match n with
  | None => "None"
  | Some n => if is_NIOUDP n then "NIO UDP" else "NIO TAP"
  end.

Definition show_adapter (a : EthernetAdapter) : string := "Ethernet adapter".

Definition show_list (l : list string) : string := "[" +++ join ", " l +++ "]".

(** A node whose process was started on [sample_host] and is running. *)
Definition running_vm : TraceNGVM :=
  snd (start show_list sample_host fresh_vm).

(** A node that was started and then closed on [sample_host]: the tunnel has
    been released and the child, already sent the termination signal, has
    not been reaped yet. *)
Definition started_then_closed_vm : TraceNGVM :=
  snd (close sample_host (snd (start show_list sample_host fresh_vm))).

(** The fresh node with a UDP NIO bound on port 0, and the same node once a
    capture has been started on it. *)
Definition bound_vm : TraceNGVM :=
  snd (port_add_nio_binding show_nio show_adapter 0 sample_udp_nio fresh_vm).

Definition capturing_vm : TraceNGVM :=
  snd (start_capture show_adapter 0 "/tmp/capture.pcap" bound_vm).

(** ** Properties *)

(** Methods are unfolded one at a time, and messages are left as written. *)
#[local] Arguments String.append : simpl never.
#[local] Arguments str_int : simpl never.
#[local] Arguments read_traceng_stdout : simpl never.
#[local] Arguments _terminate_process : simpl never.
#[local] Arguments _termination_callback : simpl never.
#[local] Arguments _check_requirements : simpl never.
#[local] Arguments _build_command : simpl never.
#[local] Arguments _traceng_path : simpl never.
#[local] Arguments captured_log : simpl never.

(** Running a method: unfold the monad and compute. *)
Ltac run :=
  unfold bind, ret, raise, gets, modify, try_except, log, perform,
    project_emit, release_udp_port, _ubridge_send, start_wrap_console,
    add_ubridge_udp_connection, update_ubridge_udp_connection,
    _start_ubridge, _stop_ubridge, BaseNode_stop, BaseNode_close,
    the_process, tunnel_item, nio_lport, set_returncode, mutate_nio0;
  cbn.

Lemma emitted_app (l1 l2 : list effect) :
  emitted (l1 ++ l2) = emitted l1 ++ emitted l2.
Proof.
  induction l1 as [|e l1 IH]; simpl; [reflexivity|].
  destruct e; simpl; rewrite ?IH; reflexivity.
Qed.

Lemma released_app (l1 l2 : list effect) :
  released (l1 ++ l2) = released l1 ++ released l2.
Proof.
  induction l1 as [|e l1 IH]; simpl; [reflexivity|].
  destruct e; simpl; rewrite ?IH; reflexivity.
Qed.

Lemma read_traceng_stdout_run (h : Host) (s : TraceNGVM) :
  exists s',
    read_traceng_stdout h s = (Ok (captured_log h s), s')
    /\ same_attributes s s'
    /\ emitted (effects s') = emitted (effects s)
    /\ released (effects s') = released (effects s).
Proof.
  unfold read_traceng_stdout, captured_log, file_text. run.
  destruct (nonempty (_traceng_stdout_file s)).
  - destruct (read_file h (_traceng_stdout_file s)); run.
    + exists s. repeat split; reflexivity.
    + eexists. split; [reflexivity|]. cbn.
      rewrite emitted_app, released_app. cbn. rewrite !app_nil_r.
      destruct s; repeat split; reflexivity.
  - exists s. repeat split; reflexivity.
Qed.

Lemma termination_callback_started (h : Host) (rc : Z) (s : TraceNGVM) :
  _started s = true ->
  exists s',
    _termination_callback h rc s = (Ok tt, s')
    /\ status s' = "stopped"
    /\ _started s' = false
    /\ _process s' = None
    /\ emitted (effects s') =
         emitted (effects s) ++
         (if rc =? 0 then []
          else [("log.error",
                 "TraceNG process has stopped, return code: " +++ str_int rc
                   +++ newline +++ captured_log h s)]).
Proof.
  intros Hs. unfold _termination_callback. run. rewrite Hs. cbn.
  destruct (rc =? 0); cbn.
  - eexists. split; [reflexivity|]. cbn.
    rewrite emitted_app. cbn. repeat split; reflexivity.
  - match goal with
    | |- context [read_traceng_stdout h ?t] =>
        destruct (read_traceng_stdout_run h t) as (s1 & Hr & Hsame & Hem & _);
        rewrite Hr
    end.
    eexists. split; [reflexivity|]. cbn.
    unfold same_attributes in Hsame.
    change (captured_log h
              (set_process None (set_status "stopped" (set_started false
                 (set_effects (effects s ++ [Log INFO
                    ("TraceNG process has stopped, return code: "
                       +++ str_int rc)]) s)))))
      with (captured_log h s).
    rewrite emitted_app, Hem. cbn. rewrite emitted_app. cbn.
    rewrite app_nil_r.
    apply (f_equal status) in Hsame as Hst.
    apply (f_equal _started) in Hsame as Hsd.
    apply (f_equal _process) in Hsame as Hp.
    cbn in Hst, Hsd, Hp.
    repeat split; congruence.
Qed.

Lemma termination_callback_not_started (h : Host) (rc : Z) (s : TraceNGVM) :
  _started s = false -> _termination_callback h rc s = (Ok tt, s).
Proof.
  intros Hs. unfold _termination_callback. run. rewrite Hs. reflexivity.
Qed.

(** C1: while the supervisor believes the process is started, the termination
    callback with return code [rc] returns normally, sets the status to
    stopped, clears [_started] and the process handle, and adds to the
    project events exactly one [log.error] event, made of [rc] and of the
    captured process log, when [rc] is non-zero and no event when it is zero;
    when [_started] is already false the callback leaves the node as it was,
    with no effect on the outside. *)
Theorem termination_callback_spec (h : Host) (rc : Z) (s : TraceNGVM) :
  (_started s = true ->
   exists s',
     _termination_callback h rc s = (Ok tt, s')
     /\ status s' = "stopped"
     /\ _started s' = false
     /\ _process s' = None
     /\ emitted (effects s') =
          emitted (effects s) ++
          (if rc =? 0 then []
           else [("log.error",
                  "TraceNG process has stopped, return code: " +++ str_int rc
                    +++ newline +++ captured_log h s)]))
  /\ (_started s = false -> _termination_callback h rc s = (Ok tt, s)).
Proof.
  split.
  - apply termination_callback_started.
  - apply termination_callback_not_started.
Qed.

(** The callback on a started node with exit code 3, and on a node that was
    never started. *)
Lemma termination_callback_spec_witness :
  (exists s',
     _termination_callback sample_host 3 running_vm = (Ok tt, s')
     /\ status s' = "stopped"
     /\ _started s' = false
     /\ _process s' = None
     /\ emitted (effects s') =
          emitted (effects running_vm) ++
          [("log.error",
            "TraceNG process has stopped, return code: " +++ str_int 3
              +++ newline +++ captured_log sample_host running_vm)])
  /\ _termination_callback sample_host 3 fresh_vm = (Ok tt, fresh_vm).
Proof.
  split.
  - apply (proj1 (termination_callback_spec sample_host 3 running_vm)).
    reflexivity.
  - apply (proj2 (termination_callback_spec sample_host 3 fresh_vm)).
    reflexivity.
Defined.

Lemma actions_app (l1 l2 : list effect) :
  actions (l1 ++ l2) = actions l1 ++ actions l2.
Proof.
  induction l1 as [|e l1 IH]; simpl; [reflexivity|].
  destruct e; simpl; rewrite ?IH; reflexivity.
Qed.

Lemma terminate_process_run (h : Host) (s : TraceNGVM) (p : Process) :
  _process s = Some p ->
  _terminate_process h s =
    (Ok tt,
     set_effects
       ((effects s ++
           [Log INFO ("Stopping TraceNG instance " +++ name s +++ " PID="
                        +++ str_int (pid p))])
          ++ [Terminate (pid p)]) s).
Proof.
  intros Hp. unfold _terminate_process. run. rewrite Hp. cbn.
  destruct (terminate h p); reflexivity.
Qed.

Lemma stop_run (h : Host) (s : TraceNGVM) :
  exists s',
    stop h s = (Ok tt, s')
    /\ _process s' = None
    /\ _started s' = false
    /\ status s' = "stopped"
    /\ actions (effects s') = actions (effects s) ++ stop_actions h s.
Proof.
  unfold stop, stop_actions, _terminate_process. run.
  destruct s as [nm i wd con st cl clo ub pr sd sf tu ad ef]; cbn.
  destruct pr as [[pd [rc|]]|]; cbn.
  - eexists; split; [reflexivity|]; cbn.
    rewrite actions_app; cbn. repeat split; reflexivity.
  - destruct (terminate h {| pid := pd; returncode := None |}); cbn;
      (destruct (wait_for_process_termination h
                   {| pid := pd; returncode := None |} 3) as [rc|[rc|]]; cbn;
       [ | | destruct (kill h {| pid := pd; returncode := None |}); cbn;
             destruct (returncode_after_kill h
                         {| pid := pd; returncode := None |}); cbn ]);
      (eexists; split; [reflexivity|]; cbn;
       rewrite ?actions_app; cbn;
       rewrite ?app_nil_r, <- ?app_assoc; cbn;
       repeat split; reflexivity).
  - eexists; split; [reflexivity|]; cbn.
    rewrite actions_app; cbn. repeat split; reflexivity.
Qed.

(** C2: from every state and whatever the host answers (the termination
    signal finding no process, the wait timing out, the kill raising an OS
    error, the exit code staying unset), [stop()] returns without raising,
    with the process handle cleared, [_started] false and the status stopped;
    what it does to the outside, log records apart, is to tear the bridging
    helper down first and then, for a running process, to send the
    termination signal, wait at most 3 and, on a timeout with the exit code
    still unset, send the kill. *)
Theorem stop_always_completes (h : Host) (s : TraceNGVM) :
  exists s',
    stop h s = (Ok tt, s')
    /\ _process s' = None
    /\ _started s' = false
    /\ status s' = "stopped"
    /\ actions (effects s') = actions (effects s) ++ stop_actions h s.
Proof. apply stop_run. Qed.

(** C2 on a child that ignores the termination signal and cannot be killed:
    the whole escalation is run and the node still ends up stopped. *)
Example stop_escalates_to_kill :
  exists s',
    stop sample_host running_vm = (Ok tt, s')
    /\ _process s' = None /\ _started s' = false
    /\ actions (effects s') =
         actions (effects running_vm)
           ++ [StopUbridge; Terminate 4242; WaitForTermination 4242 3;
               Kill 4242]
    /\ In (Log ERROR "Cannot stop the TraceNG process: Operation not permitted")
          (effects s').
Proof.
  eexists. split; [vm_compute; reflexivity|].
  repeat split; try reflexivity.
  vm_compute. repeat (first [now left | right]).
Qed.

(** C3: on every port number other than 0 and in every state, each of
    [port_add_nio_binding], [port_update_nio_binding],
    [port_remove_nio_binding], [start_capture] and [stop_capture] raises the
    error whose message says that the port does not exist in the adapter, and
    leaves the node (adapter binding and capture state included) exactly as
    it was. *)
Theorem other_ports_rejected
    (str_nio : option NIO -> string) (str_adapter : EthernetAdapter -> string)
    (port_number : Z) (nio : NIO) (output_file : string) (s : TraceNGVM) :
  port_number <> 0 ->
  port_add_nio_binding str_nio str_adapter port_number nio s
    = (Raise (TraceNGError
                (port_does_not_exist str_adapter port_number
                                     (_ethernet_adapter s))), s)
  /\ port_update_nio_binding str_adapter port_number nio s
    = (Raise (TraceNGError
                (port_does_not_exist str_adapter port_number
                                     (_ethernet_adapter s))), s)
  /\ port_remove_nio_binding str_nio str_adapter port_number s
    = (Raise (TraceNGError
                (port_does_not_exist str_adapter port_number
                                     (_ethernet_adapter s))), s)
  /\ start_capture str_adapter port_number output_file s
    = (Raise (TraceNGError
                (port_does_not_exist str_adapter port_number
                                     (_ethernet_adapter s))), s)
  /\ stop_capture str_adapter port_number s
    = (Raise (TraceNGError
                (port_does_not_exist str_adapter port_number
                                     (_ethernet_adapter s))), s).
Proof.
  intros Hport.
  apply Z.eqb_neq in Hport.
  unfold port_add_nio_binding, port_update_nio_binding,
    port_remove_nio_binding, start_capture, stop_capture, port_exists.
  run. rewrite Hport. cbn. repeat split; reflexivity.
Qed.

(** The five operations on port 1 of a running node. *)
Lemma other_ports_rejected_witness :
  port_add_nio_binding show_nio show_adapter 1 sample_udp_nio running_vm
    = (Raise (TraceNGError "Port 1 doesn't exist in adapter Ethernet adapter"),
       running_vm)
  /\ port_update_nio_binding show_adapter 1 sample_udp_nio running_vm
    = (Raise (TraceNGError "Port 1 doesn't exist in adapter Ethernet adapter"),
       running_vm)
  /\ port_remove_nio_binding show_nio show_adapter 1 running_vm
    = (Raise (TraceNGError "Port 1 doesn't exist in adapter Ethernet adapter"),
       running_vm)
  /\ start_capture show_adapter 1 "/tmp/capture.pcap" running_vm
    = (Raise (TraceNGError "Port 1 doesn't exist in adapter Ethernet adapter"),
       running_vm)
  /\ stop_capture show_adapter 1 running_vm
    = (Raise (TraceNGError "Port 1 doesn't exist in adapter Ethernet adapter"),
       running_vm).
Proof.
  apply (other_ports_rejected show_nio show_adapter 1 sample_udp_nio
           "/tmp/capture.pcap" running_vm).
  lia.
Defined.

(** C4: when the local endpoint of the local tunnel is a UDP NIO with local
    port 10001 and remote port 10002, and its remote host resolves to
    127.0.0.1, the command built is exactly the executable path, [-p] with
    the console port, [-m 1], [-i 1], [-F], [-s 10001], [-c 10002] and
    [-t 127.0.0.1], in this order, and the node is left as it was; when the
    resolution of the remote host fails, building the command raises the
    error whose message says that the host name cannot be resolved. *)
Theorem build_command_with_tunnel
    (h : Host) (s : TraceNGVM) (rhost : string) (cap : bool)
    (pcap : option string) (bridge_side : NIO) :
  _local_udp_tunnel s
    = Some (mkNIO (NIOUDP 10001 rhost 10002) cap pcap, bridge_side) ->
  (gethostbyname h rhost = Returns "127.0.0.1" ->
   _build_command h s
     = (Ok [_traceng_path h; "-p"; str_int (_internal_console_port s);
            "-m"; "1"; "-i"; "1"; "-F";
            "-s"; "10001"; "-c"; "10002"; "-t"; "127.0.0.1"], s))
  /\ (forall e, gethostbyname h rhost = Fails e ->
      _build_command h s
        = (Raise (TraceNGError
                    ("Can't resolve hostname " +++ rhost +++ ": " +++ e)), s)).
Proof.
  intros Ht. unfold _build_command. run.
  rewrite Ht. cbn. rewrite Ht. cbn.
  split.
  - intros Hr. rewrite Hr. reflexivity.
  - intros e Hr. rewrite Hr. reflexivity.
Qed.

(** The command of the running sample node, and the same node on a host whose
    resolver is down. *)
Lemma build_command_with_tunnel_witness :
  _build_command sample_host running_vm
    = (Ok ["/usr/bin/traceng"; "-p"; "5000"; "-m"; "1"; "-i"; "1"; "-F";
           "-s"; "10001"; "-c"; "10002"; "-t"; "127.0.0.1"], running_vm)
  /\ _build_command host_without_resolver running_vm
    = (Raise (TraceNGError
                "Can't resolve hostname localhost: Name or service not known"),
       running_vm).
Proof.
  split.
  - apply (proj1 (build_command_with_tunnel sample_host running_vm
                    "localhost" false None (snd sample_tunnel) eq_refl)).
    reflexivity.
  - apply (proj2 (build_command_with_tunnel host_without_resolver running_vm
                    "localhost" false None (snd sample_tunnel) eq_refl)
             "Name or service not known").
    reflexivity.
Defined.

Lemma process_exited_run (h : Host) (rc : Z) (s : TraceNGVM) :
  exists s', process_exited h rc s = (Ok tt, s') /\ is_running s' = false.
Proof.
  unfold process_exited. run.
  destruct (_started s) eqn:Hs.
  - destruct (termination_callback_started h rc
                (match _process s with
                 | Some p => set_process (Some (mkProcess (pid p) (Some rc))) s
                 | None => s
                 end)) as (s' & Hrun & _ & _ & Hp & _).
    + destruct (_process s); assumption.
    + rewrite Hrun. exists s'. split; [reflexivity|].
      unfold is_running. rewrite Hp. reflexivity.
  - rewrite termination_callback_not_started.
    + eexists. split; [reflexivity|].
      unfold is_running. destruct (_process s) eqn:Hp; cbn; [reflexivity|].
      rewrite Hp. reflexivity.
    + destruct (_process s); assumption.
Qed.

(** C6: [is_running()] is true exactly when a process handle exists and its
    exit code is unset; it is false on a node just constructed, after
    [stop()] has returned, after the termination callback has run on a node
    that believed the process started, and after the watcher has seen the
    child exit. *)
Theorem is_running_spec
    (h : Host) (rc : Z) (nm node_id wd : string) (console : Z)
    (s : TraceNGVM) :
  (is_running s = true
   <-> exists p, _process s = Some p /\ returncode p = None)
  /\ is_running (__init__ nm node_id wd console) = false
  /\ (exists s', stop h s = (Ok tt, s') /\ is_running s' = false)
  /\ (_started s = true ->
      exists s',
        _termination_callback h rc s = (Ok tt, s') /\ is_running s' = false)
  /\ (exists s', process_exited h rc s = (Ok tt, s') /\ is_running s' = false).
Proof.
  repeat split.
  - unfold is_running. intros H.
    destruct (_process s) as [p|]; [|discriminate].
    exists p. destruct (returncode p); [discriminate|]. split; reflexivity.
  - intros (p & Hp & Hrc). unfold is_running. rewrite Hp, Hrc. reflexivity.
  - destruct (stop_run h s) as (s' & Hrun & Hp & _).
    exists s'. split; [assumption|]. unfold is_running. rewrite Hp.
    reflexivity.
  - intros Hs.
    destruct (termination_callback_started h rc s Hs)
      as (s' & Hrun & _ & _ & Hp & _).
    exists s'. split; [assumption|]. unfold is_running. rewrite Hp.
    reflexivity.
  - apply process_exited_run.
Qed.

(** The callback with exit code 1 on the running sample node. *)
Lemma is_running_spec_witness :
  is_running running_vm = true
  /\ exists s',
       _termination_callback sample_host 1 running_vm = (Ok tt, s')
       /\ is_running s' = false.
Proof.
  split; [reflexivity|].
  apply (proj1 (proj2 (proj2 (proj2
           (is_running_spec sample_host 1 "n" "i" "/w" 1 running_vm))))).
  reflexivity.
Defined.

Lemma start_capture_run
    (str_adapter : EthernetAdapter -> string) (f : string) (s : TraceNGVM)
    (n : NIO) :
  nio_on_port0 s = Some n ->
  capturing n = false ->
  exists s',
    start_capture str_adapter 0 f s = (Ok tt, s')
    /\ nio_on_port0 s' = Some (startPacketCapture f n).
Proof.
  unfold nio_on_port0, get_nio. cbn. intros Hn Hc.
  unfold start_capture, port_exists, get_nio. run.
  rewrite Hn. cbn. rewrite Hc. cbn. rewrite Hn. cbn.
  destruct (ubridge s); cbn; eexists; split; reflexivity.
Qed.

Lemma start_capture_inv
    (str_adapter : EthernetAdapter -> string) (f : string) (s s' : TraceNGVM) :
  start_capture str_adapter 0 f s = (Ok tt, s') ->
  exists n, nio_on_port0 s = Some n /\ capturing n = false.
Proof.
  unfold nio_on_port0, start_capture, port_exists, get_nio. run.
  destruct (port0 (_ethernet_adapter s)) as [n|]; cbn; [|discriminate].
  destruct (capturing n) eqn:Hc; cbn; [discriminate|].
  intros _. exists n. split; [reflexivity|assumption].
Qed.

(** C7: on port 0, [start_capture] raises the not-connected error when no NIO
    is attached and the already-activated error when the attached NIO is
    capturing, and succeeds otherwise, marking the NIO capturing; after a
    successful [start_capture] a second one raises the already-activated
    error, and [stop_capture] succeeds and leaves the NIO not capturing;
    [stop_capture] raises the not-connected error when no NIO is attached;
    a failed call leaves the node as it was, and none of this depends on the
    process handle. *)
Theorem capture_spec
    (str_adapter : EthernetAdapter -> string) (f f' : string)
    (s : TraceNGVM) :
  (nio_on_port0 s = None ->
   start_capture str_adapter 0 f s
     = (Raise (TraceNGError "Port 0 is not connected"), s))
  /\ (forall n, nio_on_port0 s = Some n -> capturing n = true ->
      start_capture str_adapter 0 f s
        = (Raise (TraceNGError
                    "Packet capture is already activated on port 0"), s))
  /\ (forall n, nio_on_port0 s = Some n -> capturing n = false ->
      exists s',
        start_capture str_adapter 0 f s = (Ok tt, s')
        /\ nio_on_port0 s' = Some (startPacketCapture f n))
  /\ (forall s', start_capture str_adapter 0 f s = (Ok tt, s') ->
      start_capture str_adapter 0 f' s'
        = (Raise (TraceNGError
                    "Packet capture is already activated on port 0"), s'))
  /\ (nio_on_port0 s = None ->
      stop_capture str_adapter 0 s
        = (Raise (TraceNGError "Port 0 is not connected"), s))
  /\ (forall s', start_capture str_adapter 0 f s = (Ok tt, s') ->
      exists s'' n,
        stop_capture str_adapter 0 s' = (Ok tt, s'')
        /\ nio_on_port0 s'' = Some n /\ capturing n = false)
  /\ (forall p,
      start_capture str_adapter 0 f (set_process p s)
        = (fst (start_capture str_adapter 0 f s),
           set_process p (snd (start_capture str_adapter 0 f s))))
  /\ (forall p,
      stop_capture str_adapter 0 (set_process p s)
        = (fst (stop_capture str_adapter 0 s),
           set_process p (snd (stop_capture str_adapter 0 s)))).
Proof.
  repeat apply conj.
  - unfold nio_on_port0, start_capture, port_exists, get_nio. run.
    intros Hn. rewrite Hn. reflexivity.
  - unfold nio_on_port0, start_capture, port_exists, get_nio. run.
    intros n Hn Hc. rewrite Hn. cbn. rewrite Hc. reflexivity.
  - intros n. apply start_capture_run.
  - intros s' Hok.
    destruct (start_capture_inv _ _ _ _ Hok) as (n & Hn & Hc).
    destruct (start_capture_run str_adapter f s n Hn Hc) as (s1 & Hrun & Hn1).
    rewrite Hok in Hrun. injection Hrun as <-.
    revert Hn1.
    unfold nio_on_port0, start_capture, port_exists, get_nio. run.
    intros Hn1. rewrite Hn1. reflexivity.
  - unfold nio_on_port0, stop_capture, port_exists, get_nio. run.
    intros Hn. rewrite Hn. reflexivity.
  - intros s' Hok.
    destruct (start_capture_inv _ _ _ _ Hok) as (n & Hn & Hc).
    destruct (start_capture_run str_adapter f s n Hn Hc) as (s1 & Hrun & Hn1).
    rewrite Hok in Hrun. injection Hrun as <-.
    revert Hn1.
    unfold nio_on_port0, stop_capture, port_exists, get_nio. run.
    intros Hn1. rewrite Hn1. cbn. rewrite Hn1. cbn.
    destruct (ubridge s'); cbn; eexists; eexists;
      (split; [reflexivity|]); split; reflexivity.
  - intros p.
    unfold start_capture, port_exists, get_nio. run.
    destruct s as [nm i wd con st cl clo ub pr sd sf tu [[n|]] ef]; cbn;
      [|reflexivity].
    destruct (capturing n); cbn; [reflexivity|].
    destruct ub; reflexivity.
  - intros p.
    unfold stop_capture, port_exists, get_nio. run.
    destruct s as [nm i wd con st cl clo ub pr sd sf tu [[n|]] ef]; cbn;
      [|reflexivity].
    destruct ub; reflexivity.
Qed.

(** Captures on the fresh node, on the node with a NIO bound, and on the node
    that is already capturing. *)
Lemma capture_spec_witness :
  start_capture show_adapter 0 "/tmp/capture.pcap" fresh_vm
    = (Raise (TraceNGError "Port 0 is not connected"), fresh_vm)
  /\ (exists s',
        start_capture show_adapter 0 "/tmp/capture.pcap" bound_vm = (Ok tt, s')
        /\ nio_on_port0 s'
           = Some (startPacketCapture "/tmp/capture.pcap" sample_udp_nio))
  /\ start_capture show_adapter 0 "/tmp/other.pcap" capturing_vm
    = (Raise (TraceNGError "Packet capture is already activated on port 0"),
       capturing_vm)
  /\ stop_capture show_adapter 0 fresh_vm
    = (Raise (TraceNGError "Port 0 is not connected"), fresh_vm)
  /\ (exists s'' n,
        stop_capture show_adapter 0 capturing_vm = (Ok tt, s'')
        /\ nio_on_port0 s'' = Some n /\ capturing n = false).
Proof.
  pose proof (capture_spec show_adapter "/tmp/capture.pcap" "/tmp/other.pcap"
                fresh_vm) as (F1 & _ & _ & _ & F5 & _).
  pose proof (capture_spec show_adapter "/tmp/capture.pcap" "/tmp/other.pcap"
                bound_vm) as (_ & _ & B3 & B4 & _ & B6 & _).
  split; [apply F1; reflexivity|].
  split; [apply (B3 sample_udp_nio); reflexivity|].
  split; [apply B4; reflexivity|].
  split; [apply F5; reflexivity|].
  apply B6; reflexivity.
Defined.

(** C5, as amended: for every NIO [nioA] and every state with no NIO bound on
    port 0 in which the local tunnel exists whenever the process is running,
    [port_add_nio_binding(0, nioA)] returns [nioA],
    [port_remove_nio_binding(0)] then returns [nioA], and the adapter then
    reports no NIO on port 0. *)
Theorem bind_unbind_round_trip_holds
    (str_nio : option NIO -> string) (str_adapter : EthernetAdapter -> string)
    (nioA : NIO) (s : TraceNGVM) :
  nio_on_port0 s = None ->
  tunnel_while_running s ->
  bind_unbind_round_trip str_nio str_adapter nioA s.
Proof.
  intros _ Ht.
  unfold bind_unbind_round_trip, tunnel_while_running, nio_on_port0 in *.
  unfold port_add_nio_binding, port_remove_nio_binding, port_exists,
    get_nio, add_nio, remove_nio, is_running in *.
  run.
  destruct s as [nm i wd con st cl clo ub pr sd sf tu ad ef]; cbn in *.
  destruct pr as [[pd [rc|]]|]; cbn in *.
  - destruct nioA as [[lp rh rp|tap] c o]; cbn;
      do 2 eexists; repeat split; reflexivity.
  - destruct tu as [[a b]|]; [|exfalso; apply Ht; reflexivity]. cbn.
    destruct nioA as [[lp rh rp|tap] c o]; cbn;
      do 2 eexists; repeat split; reflexivity.
  - destruct nioA as [[lp rh rp|tap] c o]; cbn;
      do 2 eexists; repeat split; reflexivity.
Qed.

(** The round trip of the sample NIO on the running sample node. *)
Lemma bind_unbind_round_trip_holds_witness :
  bind_unbind_round_trip show_nio show_adapter sample_udp_nio running_vm.
Proof.
  apply (bind_unbind_round_trip_holds show_nio show_adapter sample_udp_nio
           running_vm).
  - reflexivity.
  - intros _. discriminate.
Defined.

(** C5 as stated fails on a node that was started and then closed while the
    child has not been reaped yet: no NIO is bound on port 0, the process is
    still running, the tunnel is gone, and [port_add_nio_binding(0, nioA)]
    raises [TypeError] on [self._local_udp_tunnel[1]]. *)
Lemma bind_unbind_round_trip_counterexample :
  nio_on_port0 started_then_closed_vm = None
  /\ port_add_nio_binding show_nio show_adapter 0 sample_udp_nio
       started_then_closed_vm
     = (Raise (TypeError "'NoneType' object is not subscriptable"),
        started_then_closed_vm)
  /\ ~ bind_unbind_round_trip show_nio show_adapter sample_udp_nio
         started_then_closed_vm.
Proof.
  assert (H : port_add_nio_binding show_nio show_adapter 0 sample_udp_nio
                started_then_closed_vm
              = (Raise (TypeError "'NoneType' object is not subscriptable"),
                 started_then_closed_vm))
    by (vm_compute; reflexivity).
  split; [reflexivity|]. split; [exact H|].
  intros (s1 & s2 & Hadd & _). rewrite H in Hadd. discriminate.
Qed.

(** C8, as amended: the first [close()] of a node (whose tunnel, if
    allocated, is a pair of UDP endpoints) returns true; besides logging it
    releases the leased port of a UDP NIO bound on port 0, releases both
    ports of an allocated tunnel, tears the bridging helper down and sends
    the termination signal ([Process.terminate()], the graceful step of
    [stop()]) to a running process, in this order and nothing more: it does
    not wait for the process and sends no kill; it leaves the tunnel unset
    and the process handle as it was; a second [close()] returns false and
    leaves the node as it is, with no effect on the outside. *)
Theorem close_once (h h' : Host) (s : TraceNGVM) :
  _closed s = false ->
  tunnel_is_udp s = true ->
  exists s',
    close h s = (Ok true, s')
    /\ _local_udp_tunnel s' = None
    /\ _process s' = _process s
    /\ actions (effects s') = actions (effects s) ++ close_actions s
    /\ close h' s' = (Ok false, s').
Proof.
  destruct s as [nm i wd con st cl clo ub pr sd sf tu ad ef].
  unfold tunnel_is_udp. cbn [_closed _local_udp_tunnel].
  intros -> Hudp.
  destruct tu as [[[[la ha ra|ta] ca oa] [[lb hb rb|tb] cb ob]]|];
    try discriminate Hudp; clear Hudp;
    destruct ad as [[[[ln hn rn|tn] cn on]|]];
    destruct pr as [[pd [rc|]]|];
    try (destruct (terminate h (mkProcess pd None)) eqn:Hterm;
         vm_compute in Hterm);
    match goal with
    | |- exists s', close h ?s0 = _ /\ _ =>
        let s1 := eval cbv -[String.append str_int app] in
                    (snd (close sample_host s0)) in
        exists s1
    end;
    (split; [vm_compute; rewrite ?Hterm; vm_compute; reflexivity|];
     split; [reflexivity|]; split; [reflexivity|];
     split; [|vm_compute; reflexivity];
     cbv [effects close_actions nio_on_port0 leased_ports get_nio
          _ethernet_adapter _local_udp_tunnel _process port0 endpoint
          pid returncode Z.eqb map];
     rewrite ?actions_app; cbn [actions app];
     rewrite ?app_nil_r, <- ?app_assoc; reflexivity).
Qed.

(** Closing the running sample node twice. *)
Lemma close_once_witness :
  exists s',
    close sample_host running_vm = (Ok true, s')
    /\ _local_udp_tunnel s' = None
    /\ _process s' = Some (mkProcess 4242 None)
    /\ actions (effects s') =
         actions (effects running_vm)
           ++ [ReleaseUdpPort 10001; ReleaseUdpPort 10002; StopUbridge;
               Terminate 4242]
    /\ close sample_host s' = (Ok false, s').
Proof.
  apply (close_once sample_host sample_host running_vm); reflexivity.
Defined.

(** C8 as stated fails on the running sample node: [close()] does not
    force-terminate the process.  It only sends the termination signal, which
    the child may ignore; no kill is sent, and after [close()] the process is
    still running. *)
Lemma close_once_counterexample :
  is_running running_vm = true
  /\ fst (close sample_host running_vm) = Ok true
  /\ actions (effects (snd (close sample_host running_vm)))
     = actions (effects running_vm)
         ++ [ReleaseUdpPort 10001; ReleaseUdpPort 10002; StopUbridge;
             Terminate 4242]
  /\ ~ force_terminated running_vm (snd (close sample_host running_vm))
  /\ is_running (snd (close sample_host running_vm)) = true.
Proof.
  split; [vm_compute; reflexivity|]. split; [vm_compute; reflexivity|].
  split; [vm_compute; reflexivity|]. split; [|vm_compute; reflexivity].
  assert (E : exists l,
             effects (snd (close sample_host running_vm)) = l
             /\ ~ In (Kill 4242) l).
  { eexists. split; [vm_compute; reflexivity|].
    intros H.
    repeat match goal with
           | H : In _ (_ :: _) |- _ => destruct H as [H|H]; [discriminate H|]
           end.
    exact H. }
  destruct E as (l & El & Hl).
  unfold force_terminated. intros H. apply Hl. rewrite <- El.
  apply (H (mkProcess 4242 None)); [vm_compute; reflexivity|reflexivity].
Qed.

Lemma check_requirements_run (h : Host) (s : TraceNGVM) :
  snd (_check_requirements h s) = s
  /\ (requirements_met h = true -> _check_requirements h s = (Ok tt, s))
  /\ (requirements_met h = false ->
      exists e, _check_requirements h s = (Raise e, s)).
Proof.
  unfold _check_requirements, requirements_met. run.
  destruct (nonempty (_traceng_path h)); cbn;
    [|repeat split; [discriminate|eexists; reflexivity]].
  destruct (ubridge_path h); cbn;
    [|repeat split; [discriminate|eexists; reflexivity]].
  destruct (isfile h (_traceng_path h)); cbn;
    [|repeat split; [discriminate|eexists; reflexivity]].
  destruct (access_X_OK h (_traceng_path h)); cbn;
    repeat split; try discriminate; eexists; reflexivity.
Qed.

(** C9, as amended: when the process is already running, [start()] spawns
    nothing and leaves the node exactly as it was, and its outcome is that of
    the requirements check made at its head: it returns normally when the
    requirements are met on the host, and raises the error of the check when
    they are not. *)
Theorem start_when_running
    (str_list : list string -> string) (h : Host) (s : TraceNGVM) :
  is_running s = true ->
  start str_list h s = (fst (_check_requirements h s), s)
  /\ (requirements_met h = true -> start str_list h s = (Ok tt, s))
  /\ (requirements_met h = false ->
      exists e, start str_list h s = (Raise e, s)).
Proof.
  intros Hrun.
  destruct (check_requirements_run h s) as (Hs & Hmet & Hnot).
  assert (Hstart : start str_list h s = (fst (_check_requirements h s), s)).
  { unfold start. run.
    destruct (_check_requirements h s) as [[[]|e] s'] eqn:Hc;
      cbn in Hs; subst s'; cbn; [|reflexivity].
    rewrite Hrun. reflexivity. }
  split; [exact Hstart|]. split.
  - intros H. rewrite Hstart, (Hmet H). reflexivity.
  - intros H. destruct (Hnot H) as (e & He).
    exists e. rewrite Hstart, He. reflexivity.
Qed.

(** A second [start()] of the running sample node on the same host. *)
Lemma start_when_running_witness :
  start show_list sample_host running_vm = (Ok tt, running_vm).
Proof.
  apply (proj1 (proj2 (start_when_running show_list sample_host running_vm
                         eq_refl))).
  reflexivity.
Defined.

(** C9 as stated fails when the executable has disappeared from the host
    while the process runs: [start()] raises the error of the requirements
    check. *)
Lemma start_when_running_counterexample :
  is_running running_vm = true
  /\ start show_list host_without_executable running_vm
     = (Raise (TraceNGError "TraceNG program 'traceng' is not accessible"),
        running_vm)
  /\ ~ (forall h s, is_running s = true ->
                    start show_list h s = (Ok tt, s)).
Proof.
  assert (H : start show_list host_without_executable running_vm
              = (Raise (TraceNGError
                          "TraceNG program 'traceng' is not accessible"),
                 running_vm))
    by (vm_compute; reflexivity).
  split; [reflexivity|]. split; [exact H|].
  intros Hall.
  specialize (Hall host_without_executable running_vm eq_refl).
  rewrite H in Hall. discriminate.
Qed.

Lemma build_command_frame (h : Host) (s s1 : TraceNGVM)
    (r : result (list string)) :
  _build_command h s = (r, s1) ->
  s1 = s \/ s1 = set_local_udp_tunnel (Some (_create_local_udp_tunnel h)) s.
Proof.
  unfold _build_command. run.
  destruct (_local_udp_tunnel s) as [[a b]|] eqn:Ht; cbn.
  - rewrite Ht. cbn.
    destruct (endpoint a) as [lp rh rp|tap]; cbn;
      [destruct (gethostbyname h rh); cbn|];
      intros H; injection H as _ <-; left; reflexivity.
  - destruct (_create_local_udp_tunnel h) as [a b]; cbn.
    destruct (endpoint a) as [lp rh rp|tap]; cbn;
      [destruct (gethostbyname h rh); cbn|];
      intros H; injection H as _ <-; right; reflexivity.
Qed.

(** C10, as amended: when [start()] has passed the requirements check, the
    process is not running and the command has been built, a failure to open
    the log file or to spawn the child (an [OSError] or a
    [subprocess.SubprocessError]) makes [start()] raise the
    could-not-start error, whose message ends with the captured process log,
    and leaves [_started], the status and the process handle as they were; the
    recorded command line is the joined command when the spawn failed, and
    is left as it was when the log file could not be opened. *)
Theorem start_launch_failure
    (str_list : list string -> string) (h : Host) (s s1 : TraceNGVM)
    (command : list string) :
  requirements_met h = true ->
  is_running s = false ->
  _build_command h s = (Ok command, s1) ->
  (forall e, open_for_writing h (log_file s) = Fails e ->
   exists s',
     start str_list h s
       = (Raise (TraceNGError
                   (could_not_start h e (file_text h (log_file s)))), s')
     /\ _started s' = _started s
     /\ status s' = status s
     /\ _process s' = _process s
     /\ command_line s' = command_line s)
  /\ (forall e, open_for_writing h (log_file s) = Returns tt ->
      create_subprocess_exec h command (working_dir s) = SpawnOSError e
      \/ create_subprocess_exec h command (working_dir s)
         = SpawnSubprocessError e ->
      exists s',
        start str_list h s
          = (Raise (TraceNGError
                      (could_not_start h e (file_text h (log_file s)))), s')
        /\ _started s' = _started s
        /\ status s' = status s
        /\ _process s' = _process s
        /\ command_line s' = join " " command).
Proof.
  intros Hmet Hrun Hcmd.
  destruct (check_requirements_run h s) as (_ & Hcheck & _).
  specialize (Hcheck Hmet).
  assert (Hframe : working_dir s1 = working_dir s
                   /\ _started s1 = _started s /\ status s1 = status s
                   /\ _process s1 = _process s
                   /\ command_line s1 = command_line s).
  { destruct (build_command_frame _ _ _ _ Hcmd) as [->| ->];
      repeat split; reflexivity. }
  destruct Hframe as (Hwd & Hsd & Hst & Hpr & Hcl).
  unfold log_file, could_not_start.
  assert (Hfinish : forall (e : string) (s2 : TraceNGVM),
             _traceng_stdout_file s2 = path_join (working_dir s) "traceng.log" ->
             exists s3,
               read_traceng_stdout h s2
                 = (Ok (file_text h (path_join (working_dir s) "traceng.log")),
                    s3)
               /\ _started s3 = _started s2 /\ status s3 = status s2
               /\ _process s3 = _process s2
               /\ command_line s3 = command_line s2).
  { intros e s2 Hfile.
    destruct (read_traceng_stdout_run h s2) as (s3 & Hr & Hsame & _).
    exists s3. unfold captured_log in Hr. rewrite Hfile in Hr.
    split; [exact Hr|].
    unfold same_attributes in Hsame.
    apply (f_equal _started) in Hsame as H1.
    apply (f_equal status) in Hsame as H2.
    apply (f_equal _process) in Hsame as H3.
    apply (f_equal command_line) in Hsame as H4.
    cbn in H1, H2, H3, H4. repeat split; congruence. }
  split.
  - intros e Hopen.
    unfold start. run. rewrite Hcheck. cbn. rewrite Hrun. cbn.
    rewrite Hcmd. cbn. rewrite Hwd, Hopen. cbn.
    match goal with
    | |- context [read_traceng_stdout h ?t] =>
        destruct (Hfinish e t eq_refl) as (s3 & Hr & H1 & H2 & H3 & H4);
        rewrite Hr
    end.
    eexists. split; [reflexivity|]. cbn in *.
    repeat split; congruence.
  - intros e Hopen Hspawn.
    unfold start. run. rewrite Hcheck. cbn. rewrite Hrun. cbn.
    rewrite Hcmd. cbn. rewrite Hwd, Hopen. cbn.
    destruct Hspawn as [Hspawn|Hspawn]; rewrite Hspawn; cbn;
      match goal with
      | |- context [read_traceng_stdout h ?t] =>
          destruct (Hfinish e t eq_refl) as (s3 & Hr & H1 & H2 & H3 & H4);
          rewrite Hr
      end;
      (eexists; split; [reflexivity|]; cbn in *;
       repeat split; congruence).
Qed.

(** The fresh sample node on a host where the log file cannot be opened, and
    on a host where the executable cannot be spawned. *)
Lemma start_launch_failure_witness :
  (exists s',
     start show_list host_with_readonly_disk fresh_vm
       = (Raise (TraceNGError
                   (could_not_start host_with_readonly_disk
                      "Read-only file system" EmptyString)), s')
     /\ _started s' = false
     /\ status s' = "stopped"
     /\ _process s' = None
     /\ command_line s' = EmptyString)
  /\ (exists s',
        start show_list host_without_exec_permission fresh_vm
          = (Raise (TraceNGError
                      (could_not_start host_without_exec_permission
                         "Exec format error" EmptyString)), s')
        /\ _started s' = false
        /\ status s' = "stopped"
        /\ _process s' = None
        /\ command_line s'
           = "/usr/bin/traceng -p 5000 -m 1 -i 1 -F -s 10001 -c 10002 -t 127.0.0.1").
Proof.
  split.
  - apply (proj1 (start_launch_failure show_list host_with_readonly_disk
                    fresh_vm
                    (snd (_build_command host_with_readonly_disk fresh_vm))
                    (match fst (_build_command host_with_readonly_disk
                                  fresh_vm) with
                     | Ok c => c
                     | Raise _ => []
                     end)
                    eq_refl eq_refl eq_refl) "Read-only file system").
    reflexivity.
  - apply (proj2 (start_launch_failure show_list host_without_exec_permission
                    fresh_vm
                    (snd (_build_command host_without_exec_permission
                            fresh_vm))
                    (match fst (_build_command host_without_exec_permission
                                  fresh_vm) with
                     | Ok c => c
                     | Raise _ => []
                     end)
                    eq_refl eq_refl eq_refl) "Exec format error").
    + reflexivity.
    + left. reflexivity.
Defined.

(** C10 as stated fails when it is the opening of the log file that fails:
    [start()] raises the could-not-start error, but the recorded command
    line is not the joined command; it is left as it was. *)
Lemma start_launch_failure_counterexample :
  exists command s1 s',
    requirements_met host_with_readonly_disk = true
    /\ is_running fresh_vm = false
    /\ _build_command host_with_readonly_disk fresh_vm = (Ok command, s1)
    /\ open_for_writing host_with_readonly_disk (log_file fresh_vm)
       = Fails "Read-only file system"
    /\ start show_list host_with_readonly_disk fresh_vm
       = (Raise (TraceNGError
                   (could_not_start host_with_readonly_disk
                      "Read-only file system" EmptyString)), s')
    /\ command_line s' = command_line fresh_vm
    /\ command_line s' <> join " " command.
Proof.
  do 3 eexists.
  split; [reflexivity|]. split; [reflexivity|].
  split; [vm_compute; reflexivity|].
  split; [reflexivity|].
  split; [vm_compute; reflexivity|].
  split; [reflexivity|].
  vm_compute. discriminate.
Qed.

(** ** Further properties of the methods *)

Lemma traceng_path_empty (h : Host) :
  nonempty (_traceng_path h) = false ->
  traceng_path_setting h = Some EmptyString.
Proof.
  unfold _traceng_path.
  destruct (traceng_path_setting h) as [p|]; cbn.
  - destruct (which h p) as [path|]; cbn.
    + destruct (nonempty path) eqn:Hp; [rewrite Hp; discriminate|].
      destruct p; [reflexivity|discriminate].
    + destruct p; [reflexivity|discriminate].
  - destruct (which h "traceng") as [path|]; cbn.
    + destruct (nonempty path) eqn:Hp; [rewrite Hp|cbn]; discriminate.
    + discriminate.
Qed.

(** X1: [_check_requirements] raises the error "No path to a TraceNG
    executable has been set" only when the configuration sets [traceng_path]
    to the empty string (with the key unset the default [traceng] is
    searched and this error cannot occur), and it does raise it then,
    leaving the node as it was, when [shutil.which] finds nothing for the
    empty string. *)
Theorem no_path_error_needs_empty_setting (h : Host) (s : TraceNGVM) :
  (_check_requirements h s
     = (Raise (TraceNGError "No path to a TraceNG executable has been set"),
        s) ->
   traceng_path_setting h = Some EmptyString)
  /\ (traceng_path_setting h = Some EmptyString ->
      which h EmptyString = None ->
      _check_requirements h s
        = (Raise (TraceNGError "No path to a TraceNG executable has been set"),
           s)).
Proof.
  split.
  - intros H. apply traceng_path_empty. revert H.
    unfold _check_requirements. run.
    destruct (nonempty (_traceng_path h)); cbn; [|reflexivity].
    destruct (ubridge_path h); cbn; [|discriminate].
    destruct (isfile h (_traceng_path h)); cbn.
    + destruct (access_X_OK h (_traceng_path h)); cbn; [discriminate|].
      intros H. cbv [String.append] in H. discriminate.
    + intros H. cbv [String.append] in H. discriminate.
  - intros Hset Hwhich.
    unfold _check_requirements, _traceng_path. run.
    rewrite Hset, Hwhich. reflexivity.
Qed.

Lemma no_path_error_needs_empty_setting_witness :
  traceng_path_setting host_with_empty_setting = Some EmptyString
  /\ _check_requirements host_with_empty_setting fresh_vm
     = (Raise (TraceNGError "No path to a TraceNG executable has been set"),
        fresh_vm).
Proof.
  split.
  - apply (proj1 (no_path_error_needs_empty_setting host_with_empty_setting
                    fresh_vm)).
    reflexivity.
  - apply (proj2 (no_path_error_needs_empty_setting host_with_empty_setting
                    fresh_vm)); reflexivity.
Defined.

(** X2: [read_traceng_stdout] never raises: it returns the contents of the
    log file, and the empty string when no log file has been named yet or
    when the file cannot be read; a failed read adds one warning to the log
    and nothing else, and the attributes of the node are never changed. *)
Theorem read_traceng_stdout_never_raises (h : Host) (s : TraceNGVM) :
  exists s',
    read_traceng_stdout h s = (Ok (file_text h (_traceng_stdout_file s)), s')
    /\ same_attributes s s'
    /\ actions (effects s') = actions (effects s)
    /\ (forall e, read_file h (_traceng_stdout_file s) = Fails e ->
        file_text h (_traceng_stdout_file s) = EmptyString)
    /\ (_traceng_stdout_file s = EmptyString ->
        s' = s /\ file_text h (_traceng_stdout_file s) = EmptyString).
Proof.
  unfold read_traceng_stdout, file_text. run.
  destruct (nonempty (_traceng_stdout_file s)) eqn:Hne.
  - assert (Hfile : _traceng_stdout_file s <> EmptyString)
      by (intros He; rewrite He in Hne; discriminate).
    destruct (read_file h (_traceng_stdout_file s)) eqn:Hr; run.
    + exists s.
      refine (conj eq_refl (conj eq_refl (conj eq_refl (conj _ _)))).
      * intros e He. discriminate.
      * intros He. contradiction.
    + eexists.
      refine (conj eq_refl (conj _ (conj _ (conj _ _)))).
      * destruct s; reflexivity.
      * cbn. rewrite actions_app. cbn. apply app_nil_r.
      * intros e He. reflexivity.
      * intros He. contradiction.
  - exists s.
    refine (conj eq_refl (conj eq_refl (conj eq_refl (conj _ _)))).
    + intros e He. reflexivity.
    + intros He. split; reflexivity.
Qed.

Lemma read_traceng_stdout_never_raises_witness :
  exists s',
    read_traceng_stdout host_with_readonly_disk running_vm
      = (Ok EmptyString, s')
    /\ same_attributes running_vm s'.
Proof.
  destruct (read_traceng_stdout_never_raises host_with_readonly_disk
              running_vm) as (s' & Hr & Hsame & _ & Hfail & _).
  exists s'. split; [|exact Hsame].
  rewrite Hr.
  rewrite (Hfail "No such file or directory" eq_refl). reflexivity.
Defined.

(** X3: when the node holds a process handle, [_terminate_process] sends the
    termination signal exactly once and returns normally whether or not the
    process still exists ([ProcessLookupError] is swallowed), leaving the
    attributes of the node, the handle included, as they were; without a
    handle it raises [AttributeError] and sends nothing. *)
Theorem terminate_process_spec (h : Host) (s : TraceNGVM) :
  (forall p, _process s = Some p ->
   exists s',
     _terminate_process h s = (Ok tt, s')
     /\ same_attributes s s'
     /\ actions (effects s') = actions (effects s) ++ [Terminate (pid p)])
  /\ (_process s = None ->
      _terminate_process h s
        = (Raise (AttributeError "'NoneType' object has no attribute"), s)).
Proof.
  split.
  - intros p Hp. rewrite (terminate_process_run h s p Hp).
    eexists. split; [reflexivity|]. cbn.
    rewrite !actions_app. cbn. rewrite app_nil_r.
    split; [|reflexivity]. destruct s; reflexivity.
  - intros Hp. unfold _terminate_process. run. rewrite Hp. reflexivity.
Qed.

Lemma terminate_process_spec_witness :
  (exists s',
     _terminate_process host_without_process running_vm = (Ok tt, s')
     /\ same_attributes running_vm s'
     /\ actions (effects s')
        = actions (effects running_vm) ++ [Terminate 4242])
  /\ _terminate_process host_without_process fresh_vm
     = (Raise (AttributeError "'NoneType' object has no attribute"), fresh_vm).
Proof.
  split.
  - apply (proj1 (terminate_process_spec host_without_process running_vm)
             (mkProcess 4242 None)).
    reflexivity.
  - apply (proj2 (terminate_process_spec host_without_process fresh_vm)).
    reflexivity.
Defined.

(** The node after [_build_command]: an existing tunnel is kept, a missing
    one is created. *)
Lemma build_command_state (h : Host) (s : TraceNGVM) :
  snd (_build_command h s)
  = match _local_udp_tunnel s with
    | Some _ => s
    | None => set_local_udp_tunnel (Some (_create_local_udp_tunnel h)) s
    end.
Proof.
  unfold _build_command. run.
  destruct (_local_udp_tunnel s) as [[a b]|] eqn:Ht; cbn.
  - rewrite Ht. cbn.
    destruct (endpoint a) as [lp rh rp|tap]; cbn;
      [destruct (gethostbyname h rh); cbn|]; reflexivity.
  - destruct (_create_local_udp_tunnel h) as [a b]; cbn.
    destruct (endpoint a) as [lp rh rp|tap]; cbn;
      [destruct (gethostbyname h rh); cbn|]; reflexivity.
Qed.



(** X5: a command that [_build_command] returns is the executable path, [-p]
    with the console port, [-m 1], [-i 1] and [-F], followed by nothing when
    the local endpoint of the tunnel is not a UDP NIO (no host name is then
    resolved), and by [-s] with its local port, [-c] with its remote port and
    [-t] with the resolved address of its remote host when it is. *)
Theorem build_command_shape
    (h : Host) (s s1 : TraceNGVM) (command : list string) :
  _build_command h s = (Ok command, s1) ->
  exists a b,
    _local_udp_tunnel s1 = Some (a, b)
    /\ match endpoint a with
       | NIOUDP lport rhost rport =>
           exists address,
             gethostbyname h rhost = Returns address
             /\ command
                = [_traceng_path h; "-p"; str_int (_internal_console_port s);
                   "-m"; "1"; "-i"; "1"; "-F";
                   "-s"; str_int lport; "-c"; str_int rport; "-t"; address]
       | NIOTAP _ =>
           command
           = [_traceng_path h; "-p"; str_int (_internal_console_port s);
              "-m"; "1"; "-i"; "1"; "-F"]
       end.
Proof.
  unfold _build_command. run.
  destruct (_local_udp_tunnel s) as [[a b]|] eqn:Ht; cbn.
  - rewrite Ht. cbn.
    destruct (endpoint a) as [lp rh rp|tap] eqn:He; cbn.
    + destruct (gethostbyname h rh) eqn:Hr; cbn; [|discriminate].
      intros H. injection H as <- <-. exists a, b. rewrite He.
      split; [assumption|]. eexists. split; [eassumption|reflexivity].
    + intros H. injection H as <- <-. exists a, b. rewrite He.
      split; [assumption|reflexivity].
  - destruct (_create_local_udp_tunnel h) as [a b]; cbn.
    destruct (endpoint a) as [lp rh rp|tap] eqn:He; cbn.
    + destruct (gethostbyname h rh) eqn:Hr; cbn; [|discriminate].
      intros H. injection H as <- <-. exists a, b. rewrite He.
      split; [reflexivity|]. eexists. split; [eassumption|reflexivity].
    + intros H. injection H as <- <-. exists a, b. rewrite He.
      split; [reflexivity|reflexivity].
Qed.

Lemma build_command_shape_witness :
  exists a b,
    _local_udp_tunnel tap_tunnel_vm = Some (a, b)
    /\ match endpoint a with
       | NIOUDP lport rhost rport =>
           exists address,
             gethostbyname host_without_resolver rhost = Returns address
             /\ ["/usr/bin/traceng"; "-p"; "5000"; "-m"; "1"; "-i"; "1"; "-F"]
                = [_traceng_path host_without_resolver; "-p";
                   str_int (_internal_console_port tap_tunnel_vm);
                   "-m"; "1"; "-i"; "1"; "-F";
                   "-s"; str_int lport; "-c"; str_int rport; "-t"; address]
       | NIOTAP _ =>
           ["/usr/bin/traceng"; "-p"; "5000"; "-m"; "1"; "-i"; "1"; "-F"]
           = [_traceng_path host_without_resolver; "-p";
              str_int (_internal_console_port tap_tunnel_vm);
              "-m"; "1"; "-i"; "1"; "-F"]
       end.
Proof.
  apply (build_command_shape host_without_resolver tap_tunnel_vm tap_tunnel_vm
           ["/usr/bin/traceng"; "-p"; "5000"; "-m"; "1"; "-i"; "1"; "-F"]).
  reflexivity.
Defined.

(** X6: when the requirements are met, the process is not running, the
    command is built, the log file opens and the child is spawned, [start()]
    returns normally with the status started, [_started] true, the handle of
    the new child (exit code unset), the joined command recorded as command
    line and the log file named; besides logging it opens the log file,
    spawns the child, registers the watcher, starts the bridging helper,
    connects the NIO bound on port 0 (if any) to the bridge side of the
    tunnel, and starts the console wrapper, in this order. *)
Theorem start_succeeds
    (str_list : list string -> string) (h : Host) (s s1 : TraceNGVM)
    (command : list string) (child : Z) :
  requirements_met h = true ->
  is_running s = false ->
  _build_command h s = (Ok command, s1) ->
  open_for_writing h (log_file s) = Returns tt ->
  create_subprocess_exec h command (working_dir s) = Spawned child ->
  exists s',
    start str_list h s = (Ok tt, s')
    /\ status s' = "started"
    /\ _started s' = true
    /\ _process s' = Some (mkProcess child None)
    /\ command_line s' = join " " command
    /\ _traceng_stdout_file s' = log_file s
    /\ _local_udp_tunnel s' = _local_udp_tunnel s1
    /\ _ethernet_adapter s' = _ethernet_adapter s
    /\ actions (effects s')
       = actions (effects s)
         ++ [OpenForWriting (log_file s);
             CreateSubprocess command (working_dir s);
             MonitorProcess child; StartUbridge]
         ++ match nio_on_port0 s, _local_udp_tunnel s1 with
            | Some n, Some (_, bridge_side) =>
                [AddUbridgeUdpConnection (bridge_name s) bridge_side n]
            | _, _ => []
            end
         ++ [StartWrapConsole].
Proof.
  intros Hmet Hrun Hcmd Hopen Hspawn.
  destruct (check_requirements_run h s) as (_ & Hcheck & _).
  specialize (Hcheck Hmet).
  destruct (build_command_shape h s s1 command Hcmd) as (a & b & Ht1 & _).
  pose proof (build_command_state h s) as Hs1. rewrite Hcmd in Hs1.
  cbn in Hs1.
  unfold log_file in *. unfold nio_on_port0.
  unfold start. run. rewrite Hcheck. cbn. rewrite Hrun. cbn.
  rewrite Hcmd. cbn.
  assert (Hwd : working_dir s1 = working_dir s)
    by (rewrite Hs1; destruct (_local_udp_tunnel s); reflexivity).
  assert (Had : _ethernet_adapter s1 = _ethernet_adapter s)
    by (rewrite Hs1; destruct (_local_udp_tunnel s); reflexivity).
  assert (Hef : effects s1 = effects s)
    by (rewrite Hs1; destruct (_local_udp_tunnel s); reflexivity).
  assert (Hid : bridge_name s1 = bridge_name s)
    by (rewrite Hs1; destruct (_local_udp_tunnel s); reflexivity).
  rewrite Hwd, Hopen. cbn. rewrite ?Hwd, Hspawn. cbn.
  unfold get_nio. cbn.
  destruct (port0 (_ethernet_adapter s)) as [n|]; cbn.
  - rewrite Ht1. cbn.
    eexists. split; [reflexivity|]. cbn.
    rewrite !actions_app, Hef, Had. cbn. unfold bridge_name in *. cbn.
    rewrite <- !app_assoc. cbn.
    rewrite Hid.
    repeat split; try reflexivity; assumption.
  - eexists. split; [reflexivity|]. cbn.
    rewrite !actions_app, Hef, Had. cbn.
    rewrite <- !app_assoc. cbn.
    repeat split; reflexivity.
Qed.

Lemma start_succeeds_witness :
  exists s',
    start show_list sample_host bound_vm = (Ok tt, s')
    /\ status s' = "started"
    /\ _started s' = true
    /\ _process s' = Some (mkProcess 4242 None)
    /\ actions (effects s')
       = [OpenForWriting "/tmp/6f3c/traceng.log";
          CreateSubprocess
            ["/usr/bin/traceng"; "-p"; "5000"; "-m"; "1"; "-i"; "1"; "-F";
             "-s"; "10001"; "-c"; "10002"; "-t"; "127.0.0.1"] "/tmp/6f3c";
          MonitorProcess 4242; StartUbridge;
          AddUbridgeUdpConnection "TraceNG-6f3c" (snd sample_tunnel)
            sample_udp_nio;
          StartWrapConsole].
Proof.
  destruct (start_succeeds show_list sample_host bound_vm
              (snd (_build_command sample_host bound_vm))
              ["/usr/bin/traceng"; "-p"; "5000"; "-m"; "1"; "-i"; "1"; "-F";
               "-s"; "10001"; "-c"; "10002"; "-t"; "127.0.0.1"]
              4242 eq_refl eq_refl eq_refl eq_refl eq_refl)
    as (s' & Hrun & Hst & Hsd & Hp & _ & _ & _ & _ & Hact).
  exists s'. repeat split; assumption.
Defined.




(** X8: when the requirements are met and the process is not running, a
    failure to resolve the remote host of the tunnel makes [start()] raise the
    cannot-resolve error as it is (not the could-not-start error): no log
    file is opened, nothing is spawned and nothing is logged, and the node
    differs from the one before at most by the tunnel just created. *)
Theorem start_resolution_failure
    (str_list : list string -> string) (h : Host) (s s1 : TraceNGVM)
    (msg : string) :
  requirements_met h = true ->
  is_running s = false ->
  _build_command h s = (Raise (TraceNGError msg), s1) ->
  start str_list h s = (Raise (TraceNGError msg), s1)
  /\ effects s1 = effects s
  /\ _process s1 = _process s
  /\ _started s1 = _started s
  /\ status s1 = status s
  /\ command_line s1 = command_line s.
Proof.
  intros Hmet Hrun Hcmd.
  destruct (check_requirements_run h s) as (_ & Hcheck & _).
  specialize (Hcheck Hmet).
  split.
  - unfold start. run. rewrite Hcheck. cbn. rewrite Hrun. cbn.
    rewrite Hcmd. reflexivity.
  - destruct (build_command_frame _ _ _ _ Hcmd) as [->| ->];
      repeat split; reflexivity.
Qed.

Lemma start_resolution_failure_witness :
  start show_list host_without_resolver fresh_vm
  = (Raise (TraceNGError
              "Can't resolve hostname localhost: Name or service not known"),
     set_local_udp_tunnel (Some sample_tunnel) fresh_vm).
Proof.
  apply (start_resolution_failure show_list host_without_resolver fresh_vm
           (set_local_udp_tunnel (Some sample_tunnel) fresh_vm)
           "Can't resolve hostname localhost: Name or service not known");
    vm_compute; reflexivity.
Defined.

(** The node after [stop()]: only the handle, [_started], the status and the
    helper flag change; no project event is emitted and no port released. *)
Lemma stop_frame (h : Host) (s : TraceNGVM) :
  exists s',
    stop h s = (Ok tt, s')
    /\ same_attributes s'
         (set_status "stopped"
            (set_started false (set_process None (set_ubridge false s))))
    /\ emitted (effects s') = emitted (effects s)
    /\ released (effects s') = released (effects s).
Proof.
  unfold stop, _terminate_process, same_attributes. run.
  destruct s as [nm i wd con st cl clo ub pr sd sf tu ad ef]; cbn.
  destruct pr as [[pd [rc|]]|]; cbn.
  - eexists; split; [reflexivity|]; cbn.
    rewrite emitted_app, released_app; cbn.
    rewrite !app_nil_r. repeat split; reflexivity.
  - destruct (terminate h {| pid := pd; returncode := None |}); cbn;
      (destruct (wait_for_process_termination h
                   {| pid := pd; returncode := None |} 3) as [rc|[rc|]]; cbn;
       [ | | destruct (kill h {| pid := pd; returncode := None |}); cbn;
             destruct (returncode_after_kill h
                         {| pid := pd; returncode := None |}); cbn ]);
      (eexists; split; [reflexivity|]; cbn;
       rewrite ?emitted_app, ?released_app; cbn;
       rewrite ?app_nil_r; repeat split; reflexivity).
  - eexists; split; [reflexivity|]; cbn.
    rewrite emitted_app, released_app; cbn.
    rewrite !app_nil_r. repeat split; reflexivity.
Qed.

Lemma stop_without_process (h : Host) (s : TraceNGVM) :
  _process s = None ->
  stop h s
  = (Ok tt,
     set_status "stopped"
       (set_started false
          (set_process None
             (set_ubridge false
                (set_effects (effects s ++ [StopUbridge]) s))))).
Proof.
  intros Hp. unfold stop, is_running. run. rewrite Hp. reflexivity.
Qed.

(** X9: [stop()] changes nothing of the node but the process handle,
    [_started], the status and the helper flag: the local tunnel, the NIO
    bound on port 0, the recorded command line and the name of the log file
    are kept; and it emits no project event and releases no UDP port. *)
Theorem stop_keeps_the_rest (h : Host) (s : TraceNGVM) :
  exists s',
    stop h s = (Ok tt, s')
    /\ same_attributes s'
         (set_status "stopped"
            (set_started false (set_process None (set_ubridge false s))))
    /\ emitted (effects s') = emitted (effects s)
    /\ released (effects s') = released (effects s).
Proof. apply stop_frame. Qed.

(** X10: a second [stop()] right after a [stop()] returns normally, sends no
    signal to any process (it only tears the bridging helper down again) and
    leaves every attribute of the node as the first one left it. *)
Theorem stop_twice (h h' : Host) (s : TraceNGVM) :
  exists s1 s2,
    stop h s = (Ok tt, s1)
    /\ stop h' s1 = (Ok tt, s2)
    /\ same_attributes s1 s2
    /\ actions (effects s2) = actions (effects s1) ++ [StopUbridge].
Proof.
  destruct (stop_frame h s) as (s1 & Hrun & Hsame & _).
  unfold same_attributes in Hsame.
  assert (Hp : _process s1 = None)
    by (apply (f_equal _process) in Hsame; exact Hsame).
  exists s1. eexists. split; [exact Hrun|].
  split; [apply (stop_without_process h' s1 Hp)|].
  split.
  - unfold same_attributes.
    apply (f_equal _started) in Hsame as H1.
    apply (f_equal status) in Hsame as H2.
    apply (f_equal ubridge) in Hsame as H3.
    destruct s1; cbn in *. subst. reflexivity.
  - cbn. rewrite actions_app. reflexivity.
Qed.

(** X11: once [stop()] has run, the termination callback does nothing,
    whatever the exit code: no event is emitted for a process that was
    stopped on purpose.  And once the callback has run on a started node,
    [stop()] sends no signal and emits nothing. *)
Theorem stop_and_callback_do_the_transition_once
    (h h' : Host) (rc : Z) (s : TraceNGVM) :
  (exists s1,
     stop h s = (Ok tt, s1)
     /\ _termination_callback h' rc s1 = (Ok tt, s1))
  /\ (_started s = true ->
      exists s1 s2,
        _termination_callback h rc s = (Ok tt, s1)
        /\ stop h' s1 = (Ok tt, s2)
        /\ actions (effects s2) = actions (effects s1) ++ [StopUbridge]
        /\ emitted (effects s2) = emitted (effects s1)).
Proof.
  split.
  - destruct (stop_run h s) as (s1 & Hrun & _ & Hsd & _).
    exists s1. split; [exact Hrun|].
    apply termination_callback_not_started. exact Hsd.
  - intros Hs.
    destruct (termination_callback_started h rc s Hs)
      as (s1 & Hrun & _ & _ & Hp & _).
    exists s1. eexists. split; [exact Hrun|].
    split; [apply (stop_without_process h' s1 Hp)|].
    cbn. rewrite actions_app, emitted_app. cbn.
    rewrite app_nil_r. split; reflexivity.
Qed.

Lemma stop_and_callback_do_the_transition_once_witness :
  exists s1 s2,
    _termination_callback sample_host 1 running_vm = (Ok tt, s1)
    /\ stop sample_host s1 = (Ok tt, s2)
    /\ actions (effects s2) = actions (effects s1) ++ [StopUbridge]
    /\ emitted (effects s2) = emitted (effects s1).
Proof.
  apply (proj2 (stop_and_callback_do_the_transition_once
                  sample_host sample_host 1 running_vm)).
  vm_compute; reflexivity.
Defined.

(** X12: the termination callback always returns normally, and a second call
    right after it does nothing, whatever the exit codes: one exit of the
    process gives at most one event. *)
Theorem termination_callback_twice
    (h h' : Host) (rc rc' : Z) (s : TraceNGVM) :
  exists s1,
    _termination_callback h rc s = (Ok tt, s1)
    /\ _termination_callback h' rc' s1 = (Ok tt, s1).
Proof.
  destruct (_started s) eqn:Hs.
  - destruct (termination_callback_started h rc s Hs)
      as (s1 & Hrun & _ & Hsd & _).
    exists s1. split; [exact Hrun|].
    apply termination_callback_not_started. exact Hsd.
  - exists s. split; apply termination_callback_not_started; exact Hs.
Qed.



(** X14: [port_remove_nio_binding(0)] never fails: it returns what was bound
    on port 0 ([None] for an empty port), leaves the port empty, and gives
    back to the port manager exactly the leased port of the removed NIO when
    it is a UDP NIO and nothing otherwise; when the process is running the
    bridge is deleted first. *)
Theorem unbind_port0
    (str_nio : option NIO -> string) (str_adapter : EthernetAdapter -> string)
    (s : TraceNGVM) :
  exists s',
    port_remove_nio_binding str_nio str_adapter 0 s = (Ok (nio_on_port0 s), s')
    /\ nio_on_port0 s' = None
    /\ released (effects s')
       = released (effects s)
         ++ match nio_on_port0 s with
            | Some n => leased_ports n
            | None => []
            end
    /\ actions (effects s')
       = actions (effects s)
         ++ (if is_running s
             then [UbridgeSend ("bridge delete " +++ bridge_name s)]
             else [])
         ++ map ReleaseUdpPort
              match nio_on_port0 s with
              | Some n => leased_ports n
              | None => []
              end.
Proof.
  unfold port_remove_nio_binding, port_exists, nio_on_port0, get_nio,
    remove_nio, leased_ports, is_running, bridge_name.
  run.
  destruct s as [nm i wd con st cl clo ub pr sd sf tu [[[[ln hn rn|tn] cn on]|]]
                   ef]; cbn;
    destruct pr as [[pd [rc|]]|]; cbn;
    (eexists; split; [reflexivity|]; cbn;
     rewrite ?released_app, ?actions_app; cbn;
     rewrite ?app_nil_r, <- ?app_assoc; cbn;
     repeat split; reflexivity).
Qed.

(** X15: [port_add_nio_binding(0, nio)] on a node whose tunnel exists
    whenever the process is running returns [nio] and makes it the NIO of
    port 0 whatever was bound there before; the NIO it replaces is not
    released: no UDP port is given back to the port manager.  The bridge
    connection is made only when the process is running. *)
Theorem bind_replaces_without_release
    (str_nio : option NIO -> string) (str_adapter : EthernetAdapter -> string)
    (nio : NIO) (s : TraceNGVM) :
  tunnel_while_running s ->
  exists s',
    port_add_nio_binding str_nio str_adapter 0 nio s = (Ok nio, s')
    /\ nio_on_port0 s' = Some nio
    /\ released (effects s') = released (effects s)
    /\ actions (effects s')
       = actions (effects s)
         ++ match is_running s, _local_udp_tunnel s with
            | true, Some (_, bridge_side) =>
                [AddUbridgeUdpConnection (bridge_name s) bridge_side nio]
            | _, _ => []
            end.
Proof.
  unfold tunnel_while_running, port_add_nio_binding, port_exists,
    nio_on_port0, get_nio, add_nio, is_running, bridge_name.
  run.
  destruct s as [nm i wd con st cl clo ub pr sd sf tu ad ef]; cbn.
  intros Ht.
  destruct pr as [[pd [rc|]]|]; cbn in *.
  - eexists; split; [reflexivity|]; cbn.
    rewrite released_app, actions_app; cbn. rewrite !app_nil_r.
    repeat split; reflexivity.
  - destruct tu as [[a b]|]; [|exfalso; apply Ht; reflexivity]. cbn.
    eexists; split; [reflexivity|]; cbn.
    rewrite !released_app, !actions_app; cbn.
    rewrite !app_nil_r. repeat split; reflexivity.
  - eexists; split; [reflexivity|]; cbn.
    rewrite released_app, actions_app; cbn. rewrite !app_nil_r.
    repeat split; reflexivity.
Qed.

Lemma bind_replaces_without_release_witness :
  exists s',
    port_add_nio_binding show_nio show_adapter 0
      (mkNIO (NIOTAP "tap0") false None) bound_vm
      = (Ok (mkNIO (NIOTAP "tap0") false None), s')
    /\ nio_on_port0 s' = Some (mkNIO (NIOTAP "tap0") false None)
    /\ released (effects s') = released (effects bound_vm).
Proof.
  destruct (bind_replaces_without_release show_nio show_adapter
              (mkNIO (NIOTAP "tap0") false None) bound_vm)
    as (s' & Hrun & Hn & Hrel & _).
  - intros Hr. vm_compute in Hr. discriminate Hr.
  - exists s'. repeat split; assumption.
Defined.

(** X16: [port_update_nio_binding(0, nio)] never changes what is bound on
    port 0, nor any other attribute of the node: when the process is not
    running it does nothing at all, and when it is running (the tunnel being
    there) it only updates the bridge connection. *)
Theorem update_keeps_binding
    (str_adapter : EthernetAdapter -> string) (nio : NIO) (s : TraceNGVM) :
  tunnel_while_running s ->
  exists s',
    port_update_nio_binding str_adapter 0 nio s = (Ok tt, s')
    /\ same_attributes s s'
    /\ (is_running s = false -> s' = s)
    /\ effects s'
       = effects s
         ++ match is_running s, _local_udp_tunnel s with
            | true, Some (_, bridge_side) =>
                [UpdateUbridgeUdpConnection (bridge_name s) bridge_side nio]
            | _, _ => []
            end.
Proof.
  unfold tunnel_while_running, port_update_nio_binding, port_exists,
    same_attributes, is_running, bridge_name.
  run.
  destruct s as [nm i wd con st cl clo ub pr sd sf tu ad ef]; cbn.
  intros Ht.
  destruct pr as [[pd [rc|]]|]; cbn in *.
  - eexists; split; [reflexivity|]. rewrite app_nil_r.
    repeat split; reflexivity.
  - destruct tu as [[a b]|]; [|exfalso; apply Ht; reflexivity]. cbn.
    eexists; split; [reflexivity|]; cbn.
    repeat split; try reflexivity. discriminate.
  - eexists; split; [reflexivity|]. rewrite app_nil_r.
    repeat split; reflexivity.
Qed.

Lemma update_keeps_binding_witness :
  exists s',
    port_update_nio_binding show_adapter 0 sample_udp_nio running_vm
      = (Ok tt, s')
    /\ same_attributes running_vm s'
    /\ effects s'
       = effects running_vm
         ++ [UpdateUbridgeUdpConnection "TraceNG-6f3c" (snd sample_tunnel)
               sample_udp_nio].
Proof.
  destruct (update_keeps_binding show_adapter sample_udp_nio running_vm)
    as (s' & Hrun & Hsame & _ & Heff).
  - intros _. vm_compute. discriminate.
  - exists s'. split; [exact Hrun|]. split; [exact Hsame|]. exact Heff.
Defined.

(** X17: a successful [start_capture] on port 0 records the output file on
    the NIO and sends the start-capture command to the bridging helper
    exactly when the helper is started; with the helper stopped only the NIO
    is marked, for the bridge to be told later. *)
Theorem start_capture_tells_active_bridge
    (str_adapter : EthernetAdapter -> string) (f : string) (s : TraceNGVM)
    (n : NIO) :
  nio_on_port0 s = Some n ->
  capturing n = false ->
  exists s',
    start_capture str_adapter 0 f s = (Ok tt, s')
    /\ nio_on_port0 s'
       = Some (mkNIO (endpoint n) true (Some f))
    /\ actions (effects s')
       = actions (effects s)
         ++ (if ubridge s
             then [UbridgeSend ("bridge start_capture " +++ bridge_name s
                                  +++ " " +++ dquote +++ f +++ dquote)]
             else []).
Proof.
  unfold nio_on_port0, get_nio. cbn. intros Hn Hc.
  unfold start_capture, port_exists, get_nio, bridge_name. run.
  rewrite Hn. cbn. rewrite Hc. cbn. rewrite Hn. cbn.
  destruct (ubridge s); cbn;
    (eexists; split; [reflexivity|]; cbn;
     rewrite ?actions_app; cbn; rewrite ?app_nil_r;
     split; reflexivity).
Qed.

Lemma start_capture_tells_active_bridge_witness :
  exists s',
    start_capture show_adapter 0 "/tmp/capture.pcap" bound_vm = (Ok tt, s')
    /\ nio_on_port0 s'
       = Some (mkNIO (endpoint sample_udp_nio) true (Some "/tmp/capture.pcap"))
    /\ actions (effects s') = actions (effects bound_vm) ++ [].
Proof.
  apply (start_capture_tells_active_bridge show_adapter "/tmp/capture.pcap"
           bound_vm sample_udp_nio); reflexivity.
Defined.
